(** * dreadl0ck/maltego: the message model and its XML rendering

    A shallow embedding of the Go package [maltego]: the escaping utility
    (go.mod part: [EscapeText], [newlineReplacer]), the entity model
    (transformEntity.go), the message envelope and its helpers
    (transform.go), the request payload declarations and the local argument
    parser ([ParseLocalArguments]).

    Go strings are byte sequences: they are modelled as [string] (a list of
    8-bit [ascii]).  Pointers that may be nil are [option]s.  The parts of
    the Go standard library the package calls ([unicode/utf8], [encoding/xml],
    [strings]) are modelled in modules of the same name. *)

From Stdlib Require Import ZArith Ascii String List Bool Lia DecimalString.
From stdpp Require Import base option list gmap strings.

(** ** Outcomes of a Go call

    A call returns, panics at run time (nil pointer dereference), or ends the
    process ([log.Fatal] prints its arguments and calls [os.Exit 1]). *)

Inductive outcome (A : Type) : Type :=
| Returns (a : A)
| Panics (why : string)
| Fatal (logged : string).

Arguments Returns {A} a.
Arguments Panics {A} why.
Arguments Fatal {A} logged.

Definition nilDereference : string :=
  "runtime error: invalid memory address or nil pointer dereference".

Definition indexOutOfRange : string := "runtime error: index out of range".

(** Sequencing: a panic or a fatal exit ends the call. *)
#[export] Instance outcome_bind : MBind outcome := fun A B f m =>
  match m with
  | Returns a => f a
  | Panics why => Panics why
  | Fatal logged => Fatal logged
  end.

(** [l[i]]: an index expression panics out of range. *)
Definition index {A : Type} (l : list A) (i : nat) : outcome A :=
  match l !! i with
  | Some a => Returns a
  | None => Panics indexOutOfRange
  end.

(** A loop over a slice whose body may panic. *)
Fixpoint rangeOver {A S : Type} (body : S -> A -> outcome S) (l : list A) (s : S)
  : outcome S :=
  match l with
  | [] => Returns s
  | a :: l' => s' ← body s a; rangeOver body l' s'
  end.

(** ** Bytes and strings *)

Definition byte (c : ascii) : Z := Z.of_N (N_of_ascii c).
Definition chr (n : Z) : ascii := ascii_of_N (Z.to_N n).
Definition str1 (c : ascii) : string := String c EmptyString.

(** The double quote, which no literal of this file contains. *)
Definition quote : string := str1 (chr 34).

(** [HasPrefix s prefix] of package strings. *)
Fixpoint HasPrefix (s prefix : string) : bool :=
  match prefix, s with
  | EmptyString, _ => true
  | String p prefix', String c s' => Ascii.eqb p c && HasPrefix s' prefix'
  | String _ _, EmptyString => false
  end.

(** [Contains s substr] of package strings. *)
Fixpoint Contains (s substr : string) : bool :=
  HasPrefix s substr ||
  match s with
  | EmptyString => false
  | String _ s' => Contains s' substr
  end.

(** ** unicode/utf8 *)

Module utf8.

Definition RuneError : Z := 65533.

(** The information of the table [first] for a leading byte: ASCII, invalid,
    or the size of the sequence with the accepted range of the second byte. *)
Inductive firstInfo : Type :=
| ascii_byte
| invalid_byte
| lead (size : nat) (lo hi : Z).

Definition locb : Z := 128.
Definition hicb : Z := 191.

Definition first (p0 : Z) : firstInfo :=
  if (p0 <? 128)%Z then ascii_byte
  else if (p0 <? 194)%Z then invalid_byte
  else if (p0 <? 224)%Z then lead 2 locb hicb
  else if (p0 =? 224)%Z then lead 3 160 hicb
  else if (p0 <? 237)%Z then lead 3 locb hicb
  else if (p0 =? 237)%Z then lead 3 locb 159
  else if (p0 <? 240)%Z then lead 3 locb hicb
  else if (p0 =? 240)%Z then lead 4 144 hicb
  else if (p0 <? 244)%Z then lead 4 locb hicb
  else if (p0 =? 244)%Z then lead 4 locb 143
  else invalid_byte.

Definition maskx : Z := 63.
Definition mask2 : Z := 31.
Definition mask3 : Z := 15.
Definition mask4 : Z := 7.

Definition continuation (b : Z) : bool := (locb <=? b)%Z && (b <=? hicb)%Z.

(** [DecodeRune p]: the first rune of [p] and its width in bytes;
    [(RuneError, 0)] on the empty string and [(RuneError, 1)] on an invalid
    or truncated encoding. *)
Definition DecodeRune (p : string) : Z * nat :=
  match p with
  | EmptyString => (RuneError, 0)
  | String c0 p1 =>
    let p0 := byte c0 in
    match first p0 with
    | ascii_byte => (p0, 1)
    | invalid_byte => (RuneError, 1)
    | lead sz lo hi =>
      match p1 with
      | EmptyString => (RuneError, 1)
      | String c1 p2 =>
        let b1 := byte c1 in
        if (b1 <? lo)%Z || (hi <? b1)%Z then (RuneError, 1)
        else if sz <=? 2 then
          (Z.lor (Z.shiftl (Z.land p0 mask2) 6) (Z.land b1 maskx), 2)
        else
          match p2 with
          | EmptyString => (RuneError, 1)
          | String c2 p3 =>
            let b2 := byte c2 in
            if negb (continuation b2) then (RuneError, 1)
            else if sz <=? 3 then
              (Z.lor (Z.lor (Z.shiftl (Z.land p0 mask3) 12)
                            (Z.shiftl (Z.land b1 maskx) 6))
                     (Z.land b2 maskx), 3)
            else
              match p3 with
              | EmptyString => (RuneError, 1)
              | String c3 _ =>
                let b3 := byte c3 in
                if negb (continuation b3) then (RuneError, 1)
                else
                  (Z.lor (Z.lor (Z.lor (Z.shiftl (Z.land p0 mask4) 18)
                                       (Z.shiftl (Z.land b1 maskx) 12))
                                (Z.shiftl (Z.land b2 maskx) 6))
                         (Z.land b3 maskx), 4)
              end
          end
      end
    end
  end.

End utf8.

(** ** strings *)

Module strings.

(** A [strings.Replacer] built by [NewReplacer old1 new1 old2 new2 ...].
    Every old string of this package is non-empty. *)
Record Replacer : Type := NewReplacer { oldnew : list (string * string) }.

(** The pair the replacer applies at the head of [s]: comparisons are done
    in argument order. *)
Definition lookup (pairs : list (string * string)) (s : string)
  : option (string * string) :=
  List.find (fun p => HasPrefix s (fst p)) pairs.

(** Replacements are performed in the order they appear in the target
    string, without overlapping matches.  [skip] counts the bytes of a
    matched old string that are still to be passed over. *)
Fixpoint replaceFrom (pairs : list (string * string)) (skip : nat) (s : string)
  : string :=
  match s with
  | EmptyString => EmptyString
  | String c s' =>
    match skip with
    | S k => replaceFrom pairs k s'
    | O =>
      match lookup pairs s with
      | Some (old, new) => new +:+ replaceFrom pairs (String.length old - 1) s'
      | None => String c (replaceFrom pairs 0 s')
      end
    end
  end.

Definition Replace (r : Replacer) (s : string) : string :=
  replaceFrom (oldnew r) 0 s.

(** [ReplaceAll s old new], for a non-empty [old]. *)
Definition ReplaceAll (s old new : string) : string :=
  replaceFrom [(old, new)] 0 s.

(** [Split s sep], for a non-empty [sep]: the substrings between the
    occurrences of [sep]; never the empty list.  [cur] is the substring
    being read. *)
Fixpoint splitFrom (sep : string) (skip : nat) (cur : string) (s : string)
  : list string :=
  match s with
  | EmptyString => [cur]
  | String c s' =>
    match skip with
    | S k => splitFrom sep k cur s'
    | O =>
      if HasPrefix s sep
      then cur :: splitFrom sep (String.length sep - 1) EmptyString s'
      else splitFrom sep 0 (cur +:+ str1 c) s'
    end
  end.

Definition Split (s sep : string) : list string :=
  splitFrom sep 0 EmptyString s.

(** [Join elems sep]. *)
Definition Join (elems : list string) (sep : string) : string :=
  String.concat sep elems.

End strings.

(** ** encoding/xml: escaping and the encoder *)

Module xml.

Definition isInCharacterRange (r : Z) : bool :=
  (r =? 9)%Z || (r =? 10)%Z || (r =? 13)%Z
  || ((32 <=? r)%Z && (r <=? 55295)%Z)
  || ((57344 <=? r)%Z && (r <=? 65533)%Z)
  || ((65536 <=? r)%Z && (r <=? 1114111)%Z).

Definition escQuot : string := "&#34;".
Definition escApos : string := "&#39;".
Definition escAmp : string := "&amp;".
Definition escLT : string := "&lt;".
Definition escGT : string := "&gt;".
Definition escTab : string := "&#x9;".
Definition escNL : string := "&#xA;".
Definition escCR : string := "&#xD;".
(** U+FFFD in UTF-8. *)
Definition escFFFD : string := String (chr 239) (String (chr 191) (str1 (chr 189))).

(** The switch of [escapeText]: the text written in place of rune [r] of
    the given width, [None] when the rune is copied as it is. *)
Definition escapeOf (escapeNewline : bool) (r : Z) (width : nat) : option string :=
  if (r =? 34)%Z then Some escQuot
  else if (r =? 39)%Z then Some escApos
  else if (r =? 38)%Z then Some escAmp
  else if (r =? 60)%Z then Some escLT
  else if (r =? 62)%Z then Some escGT
  else if (r =? 9)%Z then Some escTab
  else if (r =? 10)%Z then (if escapeNewline then Some escNL else None)
  else if (r =? 13)%Z then Some escCR
  else if negb (isInCharacterRange r) || ((r =? utf8.RuneError)%Z && (width =? 1))
       then Some escFFFD
  else None.

(** The loop of [escapeText]: decode a rune at the head of [s], write its
    escape or its bytes, go on after it.  [pending] counts the bytes of the
    rune decoded last that are still ahead; they are copied when [keep]
    holds and passed over when the rune was replaced. *)
Fixpoint escapeFrom (escapeNewline : bool) (pending : nat) (keep : bool) (s : string)
  : string :=
  match s with
  | EmptyString => EmptyString
  | String c s' =>
    match pending with
    | S p =>
      if keep then String c (escapeFrom escapeNewline p keep s')
      else escapeFrom escapeNewline p keep s'
    | O =>
      let (r, width) := utf8.DecodeRune s in
      match escapeOf escapeNewline r width with
      | Some esc => esc +:+ escapeFrom escapeNewline (width - 1) false s'
      | None => String c (escapeFrom escapeNewline (width - 1) true s')
      end
    end
  end.

Definition escapeText (s : string) (escapeNewline : bool) : string :=
  escapeFrom escapeNewline 0 true s.

(** [xml.EscapeText w s], with the buffer [w] it writes to as its result;
    writing to a [bytes.Buffer] does not fail. *)
Definition EscapeText (s : string) : string := escapeText s true.

(** The printer's [EscapeString], used for attribute values and for
    string fields rendered as elements. *)
Definition EscapeString (s : string) : string := escapeText s true.

Definition cdataStart : string := "<![CDATA[".
Definition cdataEnd : string := "]]>".
Definition cdataEscape : string := "]]]]><![CDATA[>".

Fixpoint emitCDATAFrom (skip : nat) (s : string) : string :=
  match s with
  | EmptyString => EmptyString
  | String c s' =>
    match skip with
    | S k => emitCDATAFrom k s'
    | O =>
      if HasPrefix s cdataEnd
      then cdataEscape +:+ emitCDATAFrom (String.length cdataEnd - 1) s'
      else String c (emitCDATAFrom 0 s')
    end
  end.

(** [emitCDATA]: nothing for the empty text, else one CDATA section in
    which every nested section end is split. *)
Definition emitCDATA (s : string) : string :=
  match s with
  | EmptyString => EmptyString
  | _ => cdataStart +:+ emitCDATAFrom 0 s +:+ cdataEnd
  end.

(** What the encoder writes for a value, as a tree: an element with its
    attributes in the order of the struct's fields, character data, or a
    CDATA section. *)
#[local] Unset Elimination Schemes.
Inductive Node : Type :=
| Element (name : string) (attrs : list (string * string)) (children : list Node)
| CharData (data : string)
| CData (data : string).
#[local] Set Elimination Schemes.

Definition writeAttr (a : string * string) : string :=
  " " +:+ fst a +:+ "=" +:+ quote +:+ EscapeString (snd a) +:+ quote.

Definition writeStart (name : string) (attrs : list (string * string)) : string :=
  "<" +:+ name +:+ String.concat EmptyString (map writeAttr attrs) +:+ ">".

Definition writeEnd (name : string) : string := "</" +:+ name +:+ ">".

(** The bytes the printer writes for a tree. *)
Fixpoint render (n : Node) : string :=
  match n with
  | Element name attrs children =>
    writeStart name attrs
    +:+ fold_right (fun k acc => render k +:+ acc) EmptyString children
    +:+ writeEnd name
  | CharData data => EscapeText data
  | CData data => emitCDATA data
  end.

Definition renderAll (ns : list Node) : string :=
  fold_right (fun k acc => render k +:+ acc) EmptyString ns.

(** The names of the child elements of a node, in order. *)
Definition childNames (n : Node) : list string :=
  match n with
  | Element _ _ children =>
    flat_map (fun k => match k with Element nm _ _ => [nm] | _ => [] end) children
  | _ => []
  end.

Definition children (n : Node) : list Node :=
  match n with
  | Element _ _ ks => ks
  | _ => []
  end.

End xml.

(** ** The data model (transformEntity.go, transform.go, request payload)

    The [XMLName] members of the Go structs only carry the element name of
    their tag; the encoder takes the name from the tag, so the records leave
    them out.  A slice of pointers is a list of values: every constructor of
    the package and the decoder store non-nil pointers. *)

Record GenealogyType : Type := {
  GenealogyType_Name : string;
  GenealogyType_OldName : string }.

Record Genealogy : Type := { Genealogy_Type : GenealogyType }.

Record Field : Type := {
  Field_Text : string;
  Field_MatchingRule : string;
  Field_Name : string;
  Field_DisplayName : string }.

Record AdditionalFields : Type := { AdditionalFields_Items : list Field }.

Record DisplayLabel : Type := {
  DisplayLabel_Text : string;
  DisplayLabel_Name : string;
  DisplayLabel_Type : string }.

Record DisplayInformation : Type := { DisplayInformation_Labels : list DisplayLabel }.

Record Entity : Type := {
  Entity_Type : string;
  Entity_Genealogy : option Genealogy;
  Entity_Value : string;
  Entity_Weight : string;
  Entity_Info : option DisplayInformation;
  Entity_IconURL : string;
  Entity_Fields : option AdditionalFields }.

Record Entities : Type := { Entities_Items : list Entity }.

Record UIMessage : Type := {
  UIMessage_Text : string;
  UIMessage_MessageType : string }.

Record UIMessages : Type := { UIMessages_Items : list UIMessage }.

Record ResponseMessage : Type := {
  ResponseMessage_Entities : Entities;
  ResponseMessage_UIMessages : UIMessages }.

Record Exception : Type := {
  Exception_Text : string;
  Exception_Code : string }.

Record Exceptions : Type := { Exceptions_Items : list Exception }.

Record ExceptionMessage : Type := { ExceptionMessage_Exceptions : Exceptions }.

Record Limits : Type := {
  Limits_HardLimit : string;
  Limits_SoftLimit : string }.

Record TransformField : Type := {
  TransformField_Text : string;
  TransformField_Name : string }.

Record TransformFields : Type := { TransformFields_Fields : list TransformField }.

Record RequestMessage : Type := {
  RequestMessage_Entities : Entities;
  RequestMessage_Limits : Limits;
  RequestMessage_TransformFields : TransformFields }.

(** The envelope: three payload pointers, each of which may be nil. *)
Record Transform : Type := {
  Transform_ResponseMessage : option ResponseMessage;
  Transform_ExceptionMessage : option ExceptionMessage;
  Transform_RequestMessage : option RequestMessage }.

(** The zero values [Transform{}], [&ResponseMessage{}], ... *)
Definition zeroTransform : Transform :=
  {| Transform_ResponseMessage := None;
     Transform_ExceptionMessage := None;
     Transform_RequestMessage := None |}.

Definition zeroResponseMessage : ResponseMessage :=
  {| ResponseMessage_Entities := {| Entities_Items := [] |};
     ResponseMessage_UIMessages := {| UIMessages_Items := [] |} |}.

Definition zeroExceptionMessage : ExceptionMessage :=
  {| ExceptionMessage_Exceptions := {| Exceptions_Items := [] |} |}.

Definition zeroAdditionalFields : AdditionalFields := {| AdditionalFields_Items := [] |}.

Definition zeroDisplayInformation : DisplayInformation :=
  {| DisplayInformation_Labels := [] |}.

Definition zeroRequestMessage : RequestMessage :=
  {| RequestMessage_Entities := {| Entities_Items := [] |};
     RequestMessage_Limits := {| Limits_HardLimit := EmptyString; Limits_SoftLimit := EmptyString |};
     RequestMessage_TransformFields := {| TransformFields_Fields := [] |} |}.

Definition zeroEntity : Entity :=
  {| Entity_Type := EmptyString; Entity_Genealogy := None;
     Entity_Value := EmptyString; Entity_Weight := EmptyString;
     Entity_Info := None; Entity_IconURL := EmptyString; Entity_Fields := None |}.

(** Constants of the package. *)
Definition UIMessageFatal : string := "FatalError".
Definition UIMessagePartialError : string := "PartialError".
Definition UIMessageInform : string := "Inform".
Definition UIMessageDebug : string := "Debug".
Definition Strict : string := "strict".
Definition Loose : string := "loose".
Definition LinkColor : string := "link#maltego.link.color".
Definition LinkStyle : string := "link#maltego.link.style".
Definition Label : string := "link#maltego.link.label".
Definition Bookmark : string := "bookmark#".
Definition Notes : string := "notes#".

(** ** The escaping utility *)

Definition newlineReplacer : strings.Replacer :=
  strings.NewReplacer [("&#xA;", str1 (chr 10))].

(** [EscapeText]: escape into a buffer, then replace in the buffer's text. *)
Definition EscapeText (text : string) : string :=
  let buf := xml.EscapeText text in
  strings.Replace newlineReplacer buf.

(** ** The entity model *)

Definition NewEntity (typ value weight : string) : Entity :=
  {| Entity_Type := typ; Entity_Genealogy := None;
     Entity_Value := value; Entity_Weight := weight;
     Entity_Info := None; Entity_IconURL := EmptyString; Entity_Fields := None |}.

(** The loop of [GetFieldByName] over the items. *)
Fixpoint rangeFields (items : list Field) (name : string) : string :=
  match items with
  | [] => EmptyString
  | f :: rest =>
    if String.eqb (Field_Name f) name then Field_Text f else rangeFields rest name
  end.

(** [GetFieldByName] reads [tre.Fields.Items] without a nil check on
    [tre.Fields]. *)
Definition GetFieldByName (tre : Entity) (name : string) : outcome string :=
  match Entity_Fields tre with
  | None => Panics nilDereference
  | Some fields => Returns (rangeFields (AdditionalFields_Items fields) name)
  end.

Definition setFields (tre : Entity) (fields : option AdditionalFields) : Entity :=
  {| Entity_Type := Entity_Type tre; Entity_Genealogy := Entity_Genealogy tre;
     Entity_Value := Entity_Value tre; Entity_Weight := Entity_Weight tre;
     Entity_Info := Entity_Info tre; Entity_IconURL := Entity_IconURL tre;
     Entity_Fields := fields |}.

Definition setInfo (tre : Entity) (info : option DisplayInformation) : Entity :=
  {| Entity_Type := Entity_Type tre; Entity_Genealogy := Entity_Genealogy tre;
     Entity_Value := Entity_Value tre; Entity_Weight := Entity_Weight tre;
     Entity_Info := info; Entity_IconURL := Entity_IconURL tre;
     Entity_Fields := Entity_Fields tre |}.

(** [AddProperty]: the entity after the call. *)
Definition AddProperty (tre : Entity) (fieldName displayName matchingRule value : string)
  : Entity :=
  let fields :=
    match Entity_Fields tre with
    | None => zeroAdditionalFields
    | Some fields => fields
    end in
  setFields tre
    (Some {| AdditionalFields_Items :=
               AdditionalFields_Items fields ++
               [ {| Field_Text := EscapeText value;
                    Field_MatchingRule := matchingRule;
                    Field_Name := fieldName;
                    Field_DisplayName := displayName |} ] |}).

Definition NewDisplayLabel (text name : string) : DisplayLabel :=
  {| DisplayLabel_Text := text; DisplayLabel_Name := name;
     DisplayLabel_Type := "text/html" |}.

Definition AddDisplayInformation (tre : Entity) (text name : string) : Entity :=
  let info :=
    match Entity_Info tre with
    | None => zeroDisplayInformation
    | Some info => info
    end in
  setInfo tre
    (Some {| DisplayInformation_Labels :=
               DisplayInformation_Labels info ++ [NewDisplayLabel text name] |}).

Definition SetLinkColor (tre : Entity) (color : string) : Entity :=
  AddProperty tre LinkColor "LinkColor" Loose color.

Definition SetLinkStyle (tre : Entity) (style : string) : Entity :=
  AddProperty tre LinkStyle "LinkStyle" Loose style.

Definition SetLinkLabel (tre : Entity) (label : string) : Entity :=
  AddProperty tre Label "Label" Loose label.

Definition SetBookmark (tre : Entity) (bookmark : string) : Entity :=
  AddProperty tre Bookmark "Bookmark" Loose bookmark.

Definition SetNote (tre : Entity) (note : string) : Entity :=
  AddProperty tre Notes "Notes" Loose note.

(** ** The envelope helpers (transform.go)

    A method with a pointer receiver is a function from the envelope before
    the call to the envelope after it (and the value it returns). *)

Definition responseOrNew (tr : Transform) : ResponseMessage :=
  match Transform_ResponseMessage tr with
  | None => zeroResponseMessage
  | Some r => r
  end.

Definition exceptionOrNew (tr : Transform) : ExceptionMessage :=
  match Transform_ExceptionMessage tr with
  | None => zeroExceptionMessage
  | Some x => x
  end.

(** [AddEntity]: the envelope after the call and the entity added, whose
    pointer the Go method returns. *)
Definition AddEntity (tr : Transform) (typ value : string) : Transform * Entity :=
  let resp := responseOrNew tr in
  let ent := NewEntity typ (EscapeText value) "100" in
  ({| Transform_ResponseMessage :=
        Some {| ResponseMessage_Entities :=
                  {| Entities_Items := Entities_Items (ResponseMessage_Entities resp) ++ [ent] |};
                ResponseMessage_UIMessages := ResponseMessage_UIMessages resp |};
      Transform_ExceptionMessage := Transform_ExceptionMessage tr;
      Transform_RequestMessage := Transform_RequestMessage tr |},
   ent).

Definition AddUIMessage (tr : Transform) (message messageType : string) : Transform :=
  let resp := responseOrNew tr in
  {| Transform_ResponseMessage :=
       Some {| ResponseMessage_Entities := ResponseMessage_Entities resp;
               ResponseMessage_UIMessages :=
                 {| UIMessages_Items :=
                      UIMessages_Items (ResponseMessage_UIMessages resp) ++
                      [ {| UIMessage_Text := message;
                           UIMessage_MessageType := messageType |} ] |} |};
     Transform_ExceptionMessage := Transform_ExceptionMessage tr;
     Transform_RequestMessage := Transform_RequestMessage tr |}.

Definition AddException (tr : Transform) (exceptionString code : string) : Transform :=
  let exc := exceptionOrNew tr in
  {| Transform_ResponseMessage := Transform_ResponseMessage tr;
     Transform_ExceptionMessage :=
       Some {| ExceptionMessage_Exceptions :=
                 {| Exceptions_Items :=
                      Exceptions_Items (ExceptionMessage_Exceptions exc) ++
                      [ {| Exception_Text := exceptionString;
                           Exception_Code := code |} ] |} |};
     Transform_RequestMessage := Transform_RequestMessage tr |}.

(** ** Marshalling: what [xml.Marshal] writes for each struct

    Attributes come first, in field order; then the element fields in field
    order.  A nil pointer is never written, with or without [omitempty]; a
    string field with [omitempty] is left out when empty; a string field
    without it is written as an element even when empty; a struct field is
    always written. *)

Definition optional {A : Type} (f : A -> xml.Node) (o : option A) : list xml.Node :=
  match o with
  | None => []
  | Some a => [f a]
  end.

Definition stringElement (name value : string) : xml.Node :=
  xml.Element name [] [xml.CharData value].

Definition marshalGenealogy (g : Genealogy) : xml.Node :=
  xml.Element "Genealogy" []
    [ xml.Element "Type"
        [ ("Name", GenealogyType_Name (Genealogy_Type g));
          ("OldName", GenealogyType_OldName (Genealogy_Type g)) ] [] ].

Definition marshalDisplayLabel (l : DisplayLabel) : xml.Node :=
  xml.Element "Label"
    [ ("Name", DisplayLabel_Name l); ("Type", DisplayLabel_Type l) ]
    [ xml.CData (DisplayLabel_Text l) ].

Definition marshalDisplayInformation (i : DisplayInformation) : xml.Node :=
  xml.Element "DisplayInformation" [] (map marshalDisplayLabel (DisplayInformation_Labels i)).

Definition marshalField (f : Field) : xml.Node :=
  xml.Element "Field"
    [ ("MatchingRule", Field_MatchingRule f); ("Name", Field_Name f);
      ("DisplayName", Field_DisplayName f) ]
    [ xml.CharData (Field_Text f) ].

Definition marshalAdditionalFields (a : AdditionalFields) : xml.Node :=
  xml.Element "AdditionalFields" [] (map marshalField (AdditionalFields_Items a)).

Definition marshalEntity (e : Entity) : xml.Node :=
  xml.Element "Entity" [ ("Type", Entity_Type e) ]
    (optional marshalGenealogy (Entity_Genealogy e)
     ++ [ stringElement "Value" (Entity_Value e);
          stringElement "Weight" (Entity_Weight e) ]
     ++ optional marshalDisplayInformation (Entity_Info e)
     ++ (if String.eqb (Entity_IconURL e) EmptyString then []
         else [ stringElement "IconURL" (Entity_IconURL e) ])
     ++ optional marshalAdditionalFields (Entity_Fields e)).

Definition marshalEntities (es : Entities) : xml.Node :=
  xml.Element "Entities" [] (map marshalEntity (Entities_Items es)).

Definition marshalUIMessage (m : UIMessage) : xml.Node :=
  xml.Element "UIMessage" [ ("MessageType", UIMessage_MessageType m) ]
    [ xml.CharData (UIMessage_Text m) ].

Definition marshalUIMessages (ms : UIMessages) : xml.Node :=
  xml.Element "UIMessages" [] (map marshalUIMessage (UIMessages_Items ms)).

Definition marshalResponseMessage (r : ResponseMessage) : xml.Node :=
  xml.Element "MaltegoTransformResponseMessage" []
    [ marshalEntities (ResponseMessage_Entities r);
      marshalUIMessages (ResponseMessage_UIMessages r) ].

Definition marshalException (x : Exception) : xml.Node :=
  xml.Element "Exception" [ ("code", Exception_Code x) ] [ xml.CharData (Exception_Text x) ].

Definition marshalExceptions (xs : Exceptions) : xml.Node :=
  xml.Element "Exceptions" [] (map marshalException (Exceptions_Items xs)).

Definition marshalExceptionMessage (x : ExceptionMessage) : xml.Node :=
  xml.Element "MaltegoTransformExceptionMessage" []
    [ marshalExceptions (ExceptionMessage_Exceptions x) ].

Definition marshalLimits (l : Limits) : xml.Node :=
  xml.Element "Limits"
    [ ("HardLimit", Limits_HardLimit l); ("SoftLimit", Limits_SoftLimit l) ] [].

Definition marshalTransformField (f : TransformField) : xml.Node :=
  xml.Element "Field" [ ("Name", TransformField_Name f) ]
    [ xml.CharData (TransformField_Text f) ].

Definition marshalTransformFields (fs : TransformFields) : xml.Node :=
  xml.Element "TransformFields" [] (map marshalTransformField (TransformFields_Fields fs)).

Definition marshalRequestMessage (r : RequestMessage) : xml.Node :=
  xml.Element "MaltegoTransformRequestMessage" []
    [ marshalEntities (RequestMessage_Entities r);
      marshalLimits (RequestMessage_Limits r);
      marshalTransformFields (RequestMessage_TransformFields r) ].

Definition marshalTransform (tr : Transform) : xml.Node :=
  xml.Element "MaltegoMessage" []
    (optional marshalResponseMessage (Transform_ResponseMessage tr)
     ++ optional marshalExceptionMessage (Transform_ExceptionMessage tr)
     ++ optional marshalRequestMessage (Transform_RequestMessage tr)).

(** [xml.Marshal] of an envelope; it returns no error for these structs, so
    the logging branch of the callers below is never taken. *)
Definition Marshal (tr : Transform) : string := xml.render (marshalTransform tr).

Definition ReturnOutput (tr : Transform) : string := Marshal tr.

(** [ThrowExceptions]: the envelope after the call (its response payload is
    set to nil) and the text returned. *)
Definition ThrowExceptions (tr : Transform) : Transform * string :=
  let tr' :=
    {| Transform_ResponseMessage := None;
       Transform_ExceptionMessage := Transform_ExceptionMessage tr;
       Transform_RequestMessage := Transform_RequestMessage tr |} in
  (tr', Marshal tr').

(** Sequences of helper calls on one envelope. *)
Inductive helperCall : Type :=
| callAddEntity (typ value : string)
| callAddUIMessage (message messageType : string)
| callAddException (exceptionString code : string).

Definition call (tr : Transform) (c : helperCall) : Transform :=
  match c with
  | callAddEntity typ value => fst (AddEntity tr typ value)
  | callAddUIMessage message messageType => AddUIMessage tr message messageType
  | callAddException exceptionString code => AddException tr exceptionString code
  end.

Definition calls (tr : Transform) (cs : list helperCall) : Transform :=
  fold_left call cs tr.

Definition stagesResponse (c : helperCall) : bool :=
  match c with
  | callAddEntity _ _ | callAddUIMessage _ _ => true
  | callAddException _ _ => false
  end.

Definition stagesException (c : helperCall) : bool :=
  match c with
  | callAddException _ _ => true
  | _ => false
  end.

(** ** The local argument parser *)

(** handles some characters that would cause errors *)
Definition replacer : strings.Replacer :=
  strings.NewReplacer [("&amp;", "&"); ("\=", "=")].

Record LocalTransform : Type := {
  LocalTransform_Value : string;
  LocalTransform_Values : gmap string string }.

(** [strconv]-style decimal text of a length, as [log.Fatal] prints it. *)
Definition itoa (n : nat) : string := NilZero.string_of_uint (Nat.to_uint n).

(** The line [log.Fatal] prints before it ends the process: its operands
    are written one after the other, the slice between brackets. *)
Definition fatalLine (args : list string) : string :=
  "need at least 2 arguments, got " +:+ itoa (length args) +:+ ": "
  +:+ "[" +:+ strings.Join args " " +:+ "]".

(** The body of the inner loop: one chunk [x] of an argument. *)
Definition parseVar (values : gmap string string) (x : string)
  : outcome (gmap string string) :=
  let kv := strings.Split x "=" in
  if length kv =? 2 then
    k ← index kv 0;
    v ← index kv 1;
    Returns (<[ k := strings.Replace replacer v ]> values)
  else
    k ← index kv 0;
    Returns (<[ k := strings.Replace replacer (strings.Join (drop 1 kv) "=") ]> values).

(** The body of the outer loop: one argument after the first. *)
Definition parseArg (values : gmap string string) (arg : string)
  : outcome (gmap string string) :=
  (* remove any newlines *)
  let arg := strings.ReplaceAll arg (str1 (chr 10)) " " in
  if 0 <? String.length arg then
    rangeOver parseVar (strings.Split arg "#") values
  else Returns values.

Definition ParseLocalArguments (args : list string) : outcome LocalTransform :=
  if length args <? 2 then Fatal (fatalLine args)
  else
    value ← index args 0;
    values ←
      (if 1 <? length args
       then rangeOver parseArg (drop 1 args) ∅
       else Returns ∅);
    Returns {| LocalTransform_Value := value; LocalTransform_Values := values |}.

(** ** encoding/xml: the decoder, for the part of XML the protocol uses

    [xml.Unmarshal] reads tokens up to the end of the first element of the
    input and fills the struct from them.  The model reads elements,
    attributes in single or double quotes, empty-element tags, character
    data, CDATA sections and the five predefined entities, over ASCII
    input.  Anything else (comments, processing instructions, directives,
    name spaces, numeric or other entities, carriage returns, bytes above
    127) is refused as [OutsideModel]: the model says nothing about it. *)

Module decoder.

Inductive decodeError : Type :=
| SyntaxError
| UnmarshalError
| OutsideModel.

Inductive decoding (A : Type) : Type :=
| Decoded (a : A)
| Refused (e : decodeError).

Arguments Decoded {A} a.
Arguments Refused {A} e.

(** An element that is open: its name, its attributes and the children
    read so far. *)
Record frame : Type := {
  frame_name : string;
  frame_attrs : list (string * string);
  frame_children : list xml.Node }.

Inductive lexState : Type :=
| Text (data : string)
| CDataText (data : string)
| TagOpen
| StartName (name : string)
| Attrs (name : string) (attrs : list (string * string))
| AttrName (name : string) (attrs : list (string * string)) (key : string)
| AttrEq (name : string) (attrs : list (string * string)) (key : string)
| AttrQuote (name : string) (attrs : list (string * string)) (key : string)
| AttrValue (name : string) (attrs : list (string * string)) (key : string)
            (q : ascii) (value : string)
| EmptyTag (name : string) (attrs : list (string * string))
| EndName (name : string)
| EndSpace (name : string)
| Done (root : xml.Node).

Definition isSpace (c : ascii) : bool :=
  let n := byte c in (n =? 32)%Z || (n =? 9)%Z || (n =? 10)%Z.

Definition isLetter (c : ascii) : bool :=
  let n := byte c in
  ((65 <=? n)%Z && (n <=? 90)%Z) || ((97 <=? n)%Z && (n <=? 122)%Z).

Definition isDigit (c : ascii) : bool :=
  let n := byte c in (48 <=? n)%Z && (n <=? 57)%Z.

Definition isNameStart (c : ascii) : bool := isLetter c || (byte c =? 95)%Z.

Definition isNameChar (c : ascii) : bool :=
  isNameStart c || isDigit c || (byte c =? 45)%Z || (byte c =? 46)%Z.

(** The bytes the model does not read as text: a carriage return and
    bytes above 127 are outside it, other control characters are illegal. *)
Definition textByte (c : ascii) : decoding ascii :=
  let n := byte c in
  if (n =? 13)%Z || (127 <? n)%Z then Refused OutsideModel
  else if (n <? 32)%Z && negb ((n =? 9)%Z || (n =? 10)%Z) then Refused SyntaxError
  else Decoded c.

Definition entities : list (string * string) :=
  [ ("&lt;", "<"); ("&gt;", ">"); ("&amp;", "&"); ("&apos;", "'"); ("&quot;", quote) ].

(** The entity at the head of [s]: its text and the bytes left to pass. *)
Definition entityAt (s : string) : decoding (string * nat) :=
  match strings.lookup entities s with
  | Some (ent, text) => Decoded (text, String.length ent - 1)
  | None => Refused OutsideModel
  end.

Definition addChild (k : xml.Node) (f : frame) : frame :=
  {| frame_name := frame_name f; frame_attrs := frame_attrs f;
     frame_children := frame_children f ++ [k] |}.

(** Character data read inside an open element becomes its child; outside
    the first element it is passed over. *)
Definition flush (data : string) (stack : list frame) : list frame :=
  match stack with
  | [] => []
  | f :: stack' =>
    if String.eqb data EmptyString then stack
    else addChild (xml.CharData data) f :: stack'
  end.

(** An element is complete: it is the result when no element is open, else
    a child of the innermost open element. *)
Definition close (k : xml.Node) (stack : list frame) : lexState * list frame :=
  match stack with
  | [] => (Done k, [])
  | f :: stack' => (Text EmptyString, addChild k f :: stack')
  end.

(** One byte [c], the head of [s], in state [st]: the next state, the
    number of following bytes to pass over, and the open elements. *)
Definition step (st : lexState) (stack : list frame) (c : ascii) (s : string)
  : decoding (lexState * nat * list frame) :=
  let attrsAt name attrs :=
    if isSpace c then Decoded (Attrs name attrs, 0, stack)
    else if Ascii.eqb c "/" then Decoded (EmptyTag name attrs, 0, stack)
    else if Ascii.eqb c ">" then
      Decoded (Text EmptyString, 0,
               {| frame_name := name; frame_attrs := attrs; frame_children := [] |} :: stack)
    else if isNameStart c then Decoded (AttrName name attrs (str1 c), 0, stack)
    else if Ascii.eqb c ":" || (127 <? byte c)%Z then Refused OutsideModel
    else Refused SyntaxError in
  let attrEqAt name attrs key :=
    if isSpace c then Decoded (AttrEq name attrs key, 0, stack)
    else if Ascii.eqb c "=" then Decoded (AttrQuote name attrs key, 0, stack)
    else Refused SyntaxError in
  let endSpaceAt name :=
    if isSpace c then Decoded (EndSpace name, 0, stack)
    else if Ascii.eqb c ">" then
      match stack with
      | [] => Refused SyntaxError
      | f :: stack' =>
        if String.eqb (frame_name f) name then
          let (st', stack'') :=
            close (xml.Element name (frame_attrs f) (frame_children f)) stack' in
          Decoded (st', 0, stack'')
        else Refused SyntaxError
      end
    else Refused SyntaxError in
  match st with
  | Done root => Decoded (Done root, 0, stack)
  | Text data =>
    if Ascii.eqb c "<" then
      if HasPrefix s "<![CDATA[" then Decoded (CDataText EmptyString, 8, flush data stack)
      else if HasPrefix s "</" then Decoded (EndName EmptyString, 1, flush data stack)
      else if HasPrefix s "<!" || HasPrefix s "<?" then Refused OutsideModel
      else Decoded (TagOpen, 0, flush data stack)
    else if Ascii.eqb c "&" then
      match entityAt s with
      | Decoded (text, skip) => Decoded (Text (data +:+ text), skip, stack)
      | Refused e => Refused e
      end
    else if HasPrefix s "]]>" then Refused SyntaxError
    else
      match textByte c with
      | Decoded c => Decoded (Text (data +:+ str1 c), 0, stack)
      | Refused e => Refused e
      end
  | CDataText data =>
    if HasPrefix s "]]>" then Decoded (Text EmptyString, 2, flush data stack)
    else
      match textByte c with
      | Decoded c => Decoded (CDataText (data +:+ str1 c), 0, stack)
      | Refused e => Refused e
      end
  | TagOpen =>
    if isNameStart c then Decoded (StartName (str1 c), 0, stack)
    else if Ascii.eqb c ":" || (127 <? byte c)%Z then Refused OutsideModel
    else Refused SyntaxError
  | StartName name =>
    if isNameChar c then Decoded (StartName (name +:+ str1 c), 0, stack)
    else attrsAt name []
  | Attrs name attrs => attrsAt name attrs
  | AttrName name attrs key =>
    if isNameChar c then Decoded (AttrName name attrs (key +:+ str1 c), 0, stack)
    else if Ascii.eqb c ":" || (127 <? byte c)%Z then Refused OutsideModel
    else attrEqAt name attrs key
  | AttrEq name attrs key => attrEqAt name attrs key
  | AttrQuote name attrs key =>
    if isSpace c then Decoded (AttrQuote name attrs key, 0, stack)
    else if Ascii.eqb c (chr 34) || Ascii.eqb c "'" then
      Decoded (AttrValue name attrs key c EmptyString, 0, stack)
    else Refused SyntaxError
  | AttrValue name attrs key q value =>
    if Ascii.eqb c q then Decoded (Attrs name (attrs ++ [(key, value)]), 0, stack)
    else if Ascii.eqb c "<" then Refused SyntaxError
    else if Ascii.eqb c "&" then
      match entityAt s with
      | Decoded (text, skip) =>
        Decoded (AttrValue name attrs key q (value +:+ text), skip, stack)
      | Refused e => Refused e
      end
    else
      match textByte c with
      | Decoded c => Decoded (AttrValue name attrs key q (value +:+ str1 c), 0, stack)
      | Refused e => Refused e
      end
  | EmptyTag name attrs =>
    if Ascii.eqb c ">" then
      let (st', stack') := close (xml.Element name attrs []) stack in
      Decoded (st', 0, stack')
    else Refused SyntaxError
  | EndName name =>
    if (if String.eqb name EmptyString then isNameStart c else isNameChar c)
    then Decoded (EndName (name +:+ str1 c), 0, stack)
    else if Ascii.eqb c ":" || (127 <? byte c)%Z then Refused OutsideModel
    else if String.eqb name EmptyString then Refused SyntaxError
    else endSpaceAt name
  | EndSpace name => endSpaceAt name
  end.

(** The first element of the input as a tree; what follows it is not read. *)
Fixpoint scan (st : lexState) (skip : nat) (stack : list frame) (s : string)
  : decoding xml.Node :=
  match st with
  | Done root => Decoded root
  | _ =>
    match s with
    | EmptyString => Refused SyntaxError
    | String c s' =>
      match skip with
      | S k => scan st k stack s'
      | O =>
        match step st stack c s with
        | Decoded (st', skip', stack') => scan st' skip' stack' s'
        | Refused e => Refused e
        end
      end
    end
  end.

Definition firstElement (data : string) : decoding xml.Node :=
  scan (Text EmptyString) 0 [] data.

End decoder.

(** ** Unmarshalling: how [xml.Unmarshal] fills each struct from an element

    An attribute field takes the value of the attribute of its name (the
    last one, when repeated); a string field takes the character data that
    lies directly in the element of its name; a [chardata] or [cdata] field
    takes the character data directly in the struct's own element; a struct
    field is filled from the element of its name, a nil pointer being
    allocated first; a slice grows by one value per element of its name;
    children of any other name are passed over. *)

Definition attrValue (name : string) (attrs : list (string * string)) (old : string)
  : string :=
  fold_left (fun acc a => if String.eqb (fst a) name then snd a else acc) attrs old.

Definition charData (children : list xml.Node) : string :=
  fold_right
    (fun k acc =>
       match k with
       | xml.CharData data | xml.CData data => data +:+ acc
       | xml.Element _ _ _ => acc
       end) EmptyString children.

(** The child elements of an element, each with its name. *)
Definition elements (n : xml.Node) : list (string * xml.Node) :=
  flat_map
    (fun k => match k with xml.Element name _ _ => [(name, k)] | _ => [] end)
    (xml.children n).

Definition attrsOf (n : xml.Node) : list (string * string) :=
  match n with
  | xml.Element _ attrs _ => attrs
  | _ => []
  end.

Definition nameOf (n : xml.Node) : string :=
  match n with
  | xml.Element name _ _ => name
  | _ => EmptyString
  end.

(** Fill a struct from the child elements, in document order. *)
Definition fill {A : Type} (child : A -> string * xml.Node -> A) (a : A) (n : xml.Node) : A :=
  fold_left child (elements n) a.

Definition unmarshalGenealogyType (t : GenealogyType) (n : xml.Node) : GenealogyType :=
  {| GenealogyType_Name := attrValue "Name" (attrsOf n) (GenealogyType_Name t);
     GenealogyType_OldName := attrValue "OldName" (attrsOf n) (GenealogyType_OldName t) |}.

Definition unmarshalGenealogy (g : Genealogy) (n : xml.Node) : Genealogy :=
  fill (fun g k =>
          if String.eqb (fst k) "Type"
          then {| Genealogy_Type := unmarshalGenealogyType (Genealogy_Type g) (snd k) |}
          else g) g n.

Definition unmarshalField (f : Field) (n : xml.Node) : Field :=
  {| Field_Text := charData (xml.children n);
     Field_MatchingRule := attrValue "MatchingRule" (attrsOf n) (Field_MatchingRule f);
     Field_Name := attrValue "Name" (attrsOf n) (Field_Name f);
     Field_DisplayName := attrValue "DisplayName" (attrsOf n) (Field_DisplayName f) |}.

Definition zeroField : Field :=
  {| Field_Text := EmptyString; Field_MatchingRule := EmptyString;
     Field_Name := EmptyString; Field_DisplayName := EmptyString |}.

Definition unmarshalAdditionalFields (a : AdditionalFields) (n : xml.Node) : AdditionalFields :=
  fill (fun a k =>
          if String.eqb (fst k) "Field"
          then {| AdditionalFields_Items :=
                    AdditionalFields_Items a ++ [unmarshalField zeroField (snd k)] |}
          else a) a n.

Definition unmarshalDisplayLabel (l : DisplayLabel) (n : xml.Node) : DisplayLabel :=
  {| DisplayLabel_Text := charData (xml.children n);
     DisplayLabel_Name := attrValue "Name" (attrsOf n) (DisplayLabel_Name l);
     DisplayLabel_Type := attrValue "Type" (attrsOf n) (DisplayLabel_Type l) |}.

Definition zeroDisplayLabel : DisplayLabel :=
  {| DisplayLabel_Text := EmptyString; DisplayLabel_Name := EmptyString;
     DisplayLabel_Type := EmptyString |}.

Definition unmarshalDisplayInformation (i : DisplayInformation) (n : xml.Node)
  : DisplayInformation :=
  fill (fun i k =>
          if String.eqb (fst k) "Label"
          then {| DisplayInformation_Labels :=
                    DisplayInformation_Labels i ++ [unmarshalDisplayLabel zeroDisplayLabel (snd k)] |}
          else i) i n.

Definition orZero {A : Type} (zero : A) (o : option A) : A :=
  match o with
  | None => zero
  | Some a => a
  end.

Definition zeroGenealogy : Genealogy :=
  {| Genealogy_Type :=
       {| GenealogyType_Name := EmptyString; GenealogyType_OldName := EmptyString |} |}.

Definition unmarshalEntityChild (e : Entity) (k : string * xml.Node) : Entity :=
  let (name, n) := k in
  {| Entity_Type := Entity_Type e;
     Entity_Genealogy :=
       if String.eqb name "Genealogy"
       then Some (unmarshalGenealogy (orZero zeroGenealogy (Entity_Genealogy e)) n)
       else Entity_Genealogy e;
     Entity_Value :=
       if String.eqb name "Value" then charData (xml.children n) else Entity_Value e;
     Entity_Weight :=
       if String.eqb name "Weight" then charData (xml.children n) else Entity_Weight e;
     Entity_Info :=
       if String.eqb name "DisplayInformation"
       then Some (unmarshalDisplayInformation
                    (orZero zeroDisplayInformation (Entity_Info e)) n)
       else Entity_Info e;
     Entity_IconURL :=
       if String.eqb name "IconURL" then charData (xml.children n) else Entity_IconURL e;
     Entity_Fields :=
       if String.eqb name "AdditionalFields"
       then Some (unmarshalAdditionalFields
                    (orZero zeroAdditionalFields (Entity_Fields e)) n)
       else Entity_Fields e |}.

Definition unmarshalEntity (e : Entity) (n : xml.Node) : Entity :=
  fill unmarshalEntityChild
    {| Entity_Type := attrValue "Type" (attrsOf n) (Entity_Type e);
       Entity_Genealogy := Entity_Genealogy e;
       Entity_Value := Entity_Value e; Entity_Weight := Entity_Weight e;
       Entity_Info := Entity_Info e; Entity_IconURL := Entity_IconURL e;
       Entity_Fields := Entity_Fields e |} n.

Definition unmarshalEntities (es : Entities) (n : xml.Node) : Entities :=
  fill (fun es k =>
          if String.eqb (fst k) "Entity"
          then {| Entities_Items := Entities_Items es ++ [unmarshalEntity zeroEntity (snd k)] |}
          else es) es n.

Definition unmarshalUIMessage (n : xml.Node) : UIMessage :=
  {| UIMessage_Text := charData (xml.children n);
     UIMessage_MessageType := attrValue "MessageType" (attrsOf n) EmptyString |}.

Definition unmarshalUIMessages (ms : UIMessages) (n : xml.Node) : UIMessages :=
  fill (fun ms k =>
          if String.eqb (fst k) "UIMessage"
          then {| UIMessages_Items := UIMessages_Items ms ++ [unmarshalUIMessage (snd k)] |}
          else ms) ms n.

Definition unmarshalResponseMessage (r : ResponseMessage) (n : xml.Node) : ResponseMessage :=
  fill (fun r k =>
          {| ResponseMessage_Entities :=
               if String.eqb (fst k) "Entities"
               then unmarshalEntities (ResponseMessage_Entities r) (snd k)
               else ResponseMessage_Entities r;
             ResponseMessage_UIMessages :=
               if String.eqb (fst k) "UIMessages"
               then unmarshalUIMessages (ResponseMessage_UIMessages r) (snd k)
               else ResponseMessage_UIMessages r |}) r n.

Definition unmarshalException (n : xml.Node) : Exception :=
  {| Exception_Text := charData (xml.children n);
     Exception_Code := attrValue "code" (attrsOf n) EmptyString |}.

Definition unmarshalExceptions (xs : Exceptions) (n : xml.Node) : Exceptions :=
  fill (fun xs k =>
          if String.eqb (fst k) "Exception"
          then {| Exceptions_Items := Exceptions_Items xs ++ [unmarshalException (snd k)] |}
          else xs) xs n.

Definition unmarshalExceptionMessage (x : ExceptionMessage) (n : xml.Node) : ExceptionMessage :=
  fill (fun x k =>
          if String.eqb (fst k) "Exceptions"
          then {| ExceptionMessage_Exceptions :=
                    unmarshalExceptions (ExceptionMessage_Exceptions x) (snd k) |}
          else x) x n.

Definition unmarshalLimits (l : Limits) (n : xml.Node) : Limits :=
  {| Limits_HardLimit := attrValue "HardLimit" (attrsOf n) (Limits_HardLimit l);
     Limits_SoftLimit := attrValue "SoftLimit" (attrsOf n) (Limits_SoftLimit l) |}.

Definition unmarshalTransformField (n : xml.Node) : TransformField :=
  {| TransformField_Text := charData (xml.children n);
     TransformField_Name := attrValue "Name" (attrsOf n) EmptyString |}.

Definition unmarshalTransformFields (fs : TransformFields) (n : xml.Node) : TransformFields :=
  fill (fun fs k =>
          if String.eqb (fst k) "Field"
          then {| TransformFields_Fields :=
                    TransformFields_Fields fs ++ [unmarshalTransformField (snd k)] |}
          else fs) fs n.

Definition unmarshalRequestMessage (r : RequestMessage) (n : xml.Node) : RequestMessage :=
  fill (fun r k =>
          {| RequestMessage_Entities :=
               if String.eqb (fst k) "Entities"
               then unmarshalEntities (RequestMessage_Entities r) (snd k)
               else RequestMessage_Entities r;
             RequestMessage_Limits :=
               if String.eqb (fst k) "Limits"
               then unmarshalLimits (RequestMessage_Limits r) (snd k)
               else RequestMessage_Limits r;
             RequestMessage_TransformFields :=
               if String.eqb (fst k) "TransformFields"
               then unmarshalTransformFields (RequestMessage_TransformFields r) (snd k)
               else RequestMessage_TransformFields r |}) r n.

Definition unmarshalTransformChild (tr : Transform) (k : string * xml.Node) : Transform :=
  let (name, n) := k in
  {| Transform_ResponseMessage :=
       if String.eqb name "MaltegoTransformResponseMessage"
       then Some (unmarshalResponseMessage (responseOrNew tr) n)
       else Transform_ResponseMessage tr;
     Transform_ExceptionMessage :=
       if String.eqb name "MaltegoTransformExceptionMessage"
       then Some (unmarshalExceptionMessage (exceptionOrNew tr) n)
       else Transform_ExceptionMessage tr;
     Transform_RequestMessage :=
       if String.eqb name "MaltegoTransformRequestMessage"
       then Some (unmarshalRequestMessage
                    (orZero zeroRequestMessage (Transform_RequestMessage tr)) n)
       else Transform_RequestMessage tr |}.

(** The root element must bear the name of the [XMLName] tag. *)
Definition unmarshalTransform (tr : Transform) (n : xml.Node) : decoder.decoding Transform :=
  if String.eqb (nameOf n) "MaltegoMessage"
  then decoder.Decoded (fill unmarshalTransformChild tr n)
  else decoder.Refused decoder.UnmarshalError.

(** [xml.Unmarshal data tr]: the envelope after the call, or the error. *)
Definition Unmarshal (data : string) (tr : Transform) : decoder.decoding Transform :=
  match decoder.firstElement data with
  | decoder.Decoded root => unmarshalTransform tr root
  | decoder.Refused e => decoder.Refused e
  end.

(** The request of the scenario, as sent from the client. *)
Definition dnsNameRequest : string :=
  "<MaltegoMessage><MaltegoTransformRequestMessage><Entities><Entity Type="
  +:+ quote +:+ "DNSName" +:+ quote
  +:+ "><Value>alpine.paterva.com</Value><Weight>0</Weight></Entity></Entities><Limits SoftLimit="
  +:+ quote +:+ "256" +:+ quote +:+ " HardLimit=" +:+ quote +:+ "256" +:+ quote
  +:+ "/></MaltegoTransformRequestMessage></MaltegoMessage>".

(** ** Terms the statements below are about *)

(** [absent c p]: the byte [c] does not occur in [p]. *)
Fixpoint absent (c : ascii) (p : string) : bool :=
  match p with
  | EmptyString => true
  | String a p' => negb (Ascii.eqb a c) && absent c p'
  end.

Definition newline : ascii := chr 10.

(** The arguments of one [AddProperty] call. *)
Record propertyCall : Type := {
  call_fieldName : string;
  call_displayName : string;
  call_matchingRule : string;
  call_value : string }.

Definition addProperty (tre : Entity) (c : propertyCall) : Entity :=
  AddProperty tre (call_fieldName c) (call_displayName c) (call_matchingRule c) (call_value c).

Definition addProperties (tre : Entity) (cs : list propertyCall) : Entity :=
  fold_left addProperty cs tre.

(** The field a call appends. *)
Definition fieldOf (c : propertyCall) : Field :=
  {| Field_Text := EscapeText (call_value c);
     Field_MatchingRule := call_matchingRule c;
     Field_Name := call_fieldName c;
     Field_DisplayName := call_displayName c |}.

(** The fields of an entity; none when the collection is nil. *)
Definition itemsOf (tre : Entity) : list Field :=
  match Entity_Fields tre with
  | None => []
  | Some fields => AdditionalFields_Items fields
  end.

Definition firstCall : propertyCall :=
  {| call_fieldName := "hostname"; call_displayName := "Hostname";
     call_matchingRule := Strict; call_value := "first.example" |}.

Definition secondCall : propertyCall :=
  {| call_fieldName := "hostname"; call_displayName := "Hostname";
     call_matchingRule := Strict; call_value := "second.example" |}.

Definition blankEntity : Entity := NewEntity "maltego.Phrase" EmptyString EmptyString.

(** The envelope the scenario describes. *)
Definition dnsNameEnvelope : Transform :=
  {| Transform_ResponseMessage := None;
     Transform_ExceptionMessage := None;
     Transform_RequestMessage :=
       Some {| RequestMessage_Entities :=
                 {| Entities_Items := [ NewEntity "DNSName" "alpine.paterva.com" "0" ] |};
               RequestMessage_Limits :=
                 {| Limits_HardLimit := "256"; Limits_SoftLimit := "256" |};
               RequestMessage_TransformFields := {| TransformFields_Fields := [] |} |} |}.

(** A payload pointer is set (not nil). *)
Definition isSet {A : Type} (o : option A) : bool :=
  match o with
  | Some _ => true
  | None => false
  end.

(** The element name of a payload, when the payload is written. *)
Definition named (name : string) (written : bool) : list string :=
  if written then [name] else [].

(** An envelope on which an entity was added and then an exception. *)
Definition mixedEnvelope : Transform :=
  calls zeroTransform [ callAddEntity "type" "value"; callAddException "oops" "errorCode" ].

Definition mixedOutput : string :=
  "<MaltegoMessage><MaltegoTransformResponseMessage><Entities><Entity Type="
  +:+ quote +:+ "type" +:+ quote
  +:+ "><Value>value</Value><Weight>100</Weight></Entity></Entities>"
  +:+ "<UIMessages></UIMessages></MaltegoTransformResponseMessage>"
  +:+ "<MaltegoTransformExceptionMessage><Exceptions><Exception code="
  +:+ quote +:+ "errorCode" +:+ quote
  +:+ ">oops</Exception></Exceptions></MaltegoTransformExceptionMessage></MaltegoMessage>".

(** The envelope of a handler that received the request of the scenario,
    added an entity and then an exception. *)
Definition failedLookup : Transform :=
  calls dnsNameEnvelope
    [ callAddEntity "maltego.IPv4Address" "173.230.156.137";
      callAddException "oops" "errorCode" ].

Definition failedLookupOutput : string :=
  "<MaltegoMessage><MaltegoTransformExceptionMessage><Exceptions><Exception code="
  +:+ quote +:+ "errorCode" +:+ quote
  +:+ ">oops</Exception></Exceptions></MaltegoTransformExceptionMessage>"
  +:+ "<MaltegoTransformRequestMessage><Entities><Entity Type="
  +:+ quote +:+ "DNSName" +:+ quote
  +:+ "><Value>alpine.paterva.com</Value><Weight>0</Weight></Entity></Entities>"
  +:+ "<Limits HardLimit=" +:+ quote +:+ "256" +:+ quote
  +:+ " SoftLimit=" +:+ quote +:+ "256" +:+ quote +:+ "></Limits>"
  +:+ "<TransformFields></TransformFields></MaltegoTransformRequestMessage></MaltegoMessage>".

(** The scenario of the package's test: an exception on an envelope, here
    after an entity and a UI message were added. *)
Definition thrown : list helperCall :=
  [ callAddEntity "type" "value"; callAddUIMessage "message" UIMessageDebug;
    callAddException "oops" "errorCode" ].

Definition thrownOutput : string :=
  "<MaltegoMessage><MaltegoTransformExceptionMessage><Exceptions><Exception code="
  +:+ quote +:+ "errorCode" +:+ quote
  +:+ ">oops</Exception></Exceptions></MaltegoTransformExceptionMessage></MaltegoMessage>".

(** Sample request of TestParseMaltegoToTDS, from the client to the server. *)
Definition maltegoToTDS : string :=
  "<MaltegoMessage>
		<MaltegoTransformRequestMessage>
			<Entities>
				<Entity Type="
  +:+ quote +:+ "DNSName" +:+ quote +:+ ">
					<Genealogy>
						<Type Name="
  +:+ quote +:+ "maltego.DNSName" +:+ quote +:+ " OldName=" +:+ quote +:+ "DNSName"
  +:+ quote +:+ "/>
					</Genealogy>
					<AdditionalFields>
						<Field Name="
  +:+ quote +:+ "fqdn" +:+ quote +:+ " DisplayName=" +:+ quote +:+ "DNS Name" +:+ quote +:+ ">alpine.paterva.com</Field>
					</AdditionalFields>
					<Value>alpine.paterva.com</Value>
					<Weight>0</Weight>
				</Entity>
			</Entities>
			<Limits SoftLimit="
  +:+ quote +:+ "256" +:+ quote +:+ " HardLimit=" +:+ quote +:+ "256" +:+ quote +:+ "/>
		</MaltegoTransformRequestMessage>
	</MaltegoMessage>".

(** Sample response of TestParseTDSToMaltego. *)
Definition tdsToMaltego : string :=
  "<MaltegoMessage>
		<MaltegoTransformResponseMessage>
			<Entities>
				<Entity Type="
  +:+ quote +:+ "maltego.IPv4Address" +:+ quote +:+ ">
					<Value><![CDATA[173.230.156.137]]></Value>
					<Weight>100</Weight>
				</Entity>
			</Entities>
			<UIMessages>
				<UIMessage MessageType="
  +:+ quote +:+ "Inform" +:+ quote +:+ ">Slider value is at: 256</UIMessage>
			</UIMessages>
		</MaltegoTransformResponseMessage>
	</MaltegoMessage>".

(** Expected text of TestTransformFromStructure. *)
Definition expTransformFromStructure : string :=
  "<MaltegoMessage><MaltegoTransformResponseMessage><Entities>" +:+ "<Entity Type="
  +:+ quote +:+ "type" +:+ quote
  +:+ "><Value>value</Value><Weight></Weight></Entity><Entity Type=" +:+ quote
  +:+ "type2" +:+ quote
  +:+ "><Value>value2</Value><Weight></Weight></Entity></Entities>"
  +:+ "<UIMessages><UIMessage MessageType=" +:+ quote +:+ "Debug" +:+ quote
  +:+ ">text</UIMessage><UIMessage MessageType=" +:+ quote +:+ "Debug" +:+ quote
  +:+ ">text2</UIMessage></UIMessages></MaltegoTransformResponseMessage>"
  +:+ "</MaltegoMessage>".

(** Expected text of TestTransformViaHelpers. *)
Definition expTransformViaHelpers : string :=
  "<MaltegoMessage><MaltegoTransformResponseMessage><Entities>" +:+ "<Entity Type="
  +:+ quote +:+ "type" +:+ quote
  +:+ "><Value>value</Value><Weight>100</Weight></Entity><Entity Type=" +:+ quote
  +:+ "type2" +:+ quote
  +:+ "><Value>value2</Value><Weight>100</Weight></Entity></Entities>"
  +:+ "<UIMessages><UIMessage MessageType=" +:+ quote +:+ "Debug" +:+ quote
  +:+ ">message</UIMessage><UIMessage MessageType=" +:+ quote +:+ "Debug" +:+ quote
  +:+ ">message2</UIMessage></UIMessages></MaltegoTransformResponseMessage>"
  +:+ "</MaltegoMessage>".

(** Expected text of TestTransformEntity. *)
Definition expTransformEntity : string :=
  "<Entity Type=" +:+ quote +:+ "type" +:+ quote
  +:+ "><Value>value</Value><Weight>10</Weight><DisplayInformation>" +:+ "<Label Name="
  +:+ quote +:+ "text" +:+ quote +:+ " Type=" +:+ quote +:+ "text/html" +:+ quote
  +:+ "><![CDATA[name]]></Label><Label Name=" +:+ quote +:+ "text2" +:+ quote
  +:+ " Type=" +:+ quote +:+ "text/html" +:+ quote
  +:+ "><![CDATA[name2]]></Label></DisplayInformation>"
  +:+ "<IconURL>http://asdf.com</IconURL></Entity>".

(** Expected text of TestTransformException and TestTransformThrowException. *)
Definition expTransformException : string :=
  "<MaltegoMessage><MaltegoTransformExceptionMessage><Exceptions>"
  +:+ "<Exception code=" +:+ quote +:+ "errorCode" +:+ quote
  +:+ ">oops</Exception></Exceptions></MaltegoTransformExceptionMessage>"
  +:+ "</MaltegoMessage>".

(** Expected text of TestLabel. *)
Definition expLabel : string :=
  "<Label Name=" +:+ quote +:+ "name" +:+ quote +:+ " Type=" +:+ quote +:+ "text/html"
  +:+ quote +:+ "><![CDATA[text]]></Label>".

Definition maltegoToTDSEnvelope : Transform :=
  {| Transform_ResponseMessage := None;
     Transform_ExceptionMessage := None;
     Transform_RequestMessage :=
       Some {| RequestMessage_Entities :=
                 {| Entities_Items :=
                      [ {| Entity_Type := "DNSName";
                           Entity_Genealogy :=
                             Some {| Genealogy_Type :=
                                       {| GenealogyType_Name := "maltego.DNSName";
                                          GenealogyType_OldName := "DNSName" |} |};
                           Entity_Value := "alpine.paterva.com";
                           Entity_Weight := "0";
                           Entity_Info := None;
                           Entity_IconURL := EmptyString;
                           Entity_Fields :=
                             Some {| AdditionalFields_Items :=
                                       [ {| Field_Text := "alpine.paterva.com";
                                            Field_MatchingRule := EmptyString;
                                            Field_Name := "fqdn";
                                            Field_DisplayName := "DNS Name" |} ] |} |} ] |};
               RequestMessage_Limits :=
                 {| Limits_HardLimit := "256"; Limits_SoftLimit := "256" |};
               RequestMessage_TransformFields := {| TransformFields_Fields := [] |} |} |}.

Definition tdsToMaltegoEnvelope : Transform :=
  {| Transform_ResponseMessage :=
       Some {| ResponseMessage_Entities :=
                 {| Entities_Items := [ NewEntity "maltego.IPv4Address" "173.230.156.137" "100" ] |};
               ResponseMessage_UIMessages :=
                 {| UIMessages_Items :=
                      [ {| UIMessage_Text := "Slider value is at: 256";
                           UIMessage_MessageType := UIMessageInform |} ] |} |};
     Transform_ExceptionMessage := None;
     Transform_RequestMessage := None |}.

(** The envelope TestTransformFromStructure builds. *)
Definition fromStructure : Transform :=
  {| Transform_ResponseMessage :=
       Some {| ResponseMessage_Entities :=
                 {| Entities_Items :=
                      [ NewEntity "type" "value" EmptyString;
                        NewEntity "type2" "value2" EmptyString ] |};
               ResponseMessage_UIMessages :=
                 {| UIMessages_Items :=
                      [ {| UIMessage_Text := "text"; UIMessage_MessageType := UIMessageDebug |};
                        {| UIMessage_Text := "text2"; UIMessage_MessageType := UIMessageDebug |} ] |} |};
     Transform_ExceptionMessage := None;
     Transform_RequestMessage := None |}.

(** The calls of TestTransformViaHelpers. *)
Definition viaHelpers : list helperCall :=
  [ callAddEntity "type" "value"; callAddEntity "type2" "value2";
    callAddUIMessage "message" UIMessageDebug; callAddUIMessage "message2" UIMessageDebug ].

(** The entity of TestTransformEntity. *)
Definition testEntity : Entity :=
  {| Entity_Type := "type"; Entity_Genealogy := None;
     Entity_Value := "value"; Entity_Weight := "10";
     Entity_Info :=
       Some {| DisplayInformation_Labels :=
                 [ NewDisplayLabel "name" "text"; NewDisplayLabel "name2" "text2" ] |};
     Entity_IconURL := "http://asdf.com"; Entity_Fields := None |}.

(** The arguments of TestParseLocalArguments, after the program name. *)
Definition localArguments : list string :=
  [ "pãypal.com" +:+ str1 newline +:+ "xn--pypal-9qa.com" +:+ str1 newline +:+ "registered";
    "fqdn=pãypal.com" +:+ str1 newline +:+ "xn--pypal-9qa.com" +:+ str1 newline
    +:+ "registered#unicode=pãypal.com#ascii=xn--pypal-9qa.com#status=registered"
    +:+ "#ips=34.102.136.180#names=180.136.102.34.bc.googleusercontent.com." ].

(** ** Terms of the further properties *)

(** [allBytes p s]: every byte of [s] satisfies [p]. *)
Fixpoint allBytes (p : ascii -> bool) (s : string) : bool :=
  match s with
  | EmptyString => true
  | String c s' => p c && allBytes p s'
  end.

(** The first [n] bytes of [s] exist and are continuation-range bytes or
    above (128 and more). *)
Fixpoint high (n : nat) (s : string) : bool :=
  match n, s with
  | O, _ => true
  | S n', String c s' => (128 <=? byte c)%Z && high n' s'
  | S _, EmptyString => false
  end.

(** The five characters XML escaping is about. *)
Definition isMarkup (c : ascii) : bool :=
  let n := byte c in
  (n =? 34)%Z || (n =? 38)%Z || (n =? 39)%Z || (n =? 60)%Z || (n =? 62)%Z.

(** Plain text: printable ASCII other than the five markup characters, and
    the newline. *)
Definition plainByte (c : ascii) : bool :=
  let n := byte c in
  ((32 <=? n)%Z && (n <=? 126)%Z && negb (isMarkup c)) || (n =? 10)%Z.

(** A field of the given name is among the items. *)
Definition hasField (name : string) (items : list Field) : bool :=
  existsb (fun f => String.eqb (Field_Name f) name) items.

(** What a sequence of helper calls adds to each list of the envelope. *)
Definition entitiesOf (cs : list helperCall) : list Entity :=
  flat_map (fun c => match c with
                     | callAddEntity typ value => [NewEntity typ (EscapeText value) "100"]
                     | _ => []
                     end) cs.

Definition uiMessagesOf (cs : list helperCall) : list UIMessage :=
  flat_map (fun c => match c with
                     | callAddUIMessage message messageType =>
                       [ {| UIMessage_Text := message; UIMessage_MessageType := messageType |} ]
                     | _ => []
                     end) cs.

Definition exceptionsOf (cs : list helperCall) : list Exception :=
  flat_map (fun c => match c with
                     | callAddException exceptionString code =>
                       [ {| Exception_Text := exceptionString; Exception_Code := code |} ]
                     | _ => []
                     end) cs.

(** The payload a pointer refers to after the calls: the former lists with
    the additions at their end. *)
Definition extendResponse (r : ResponseMessage) (cs : list helperCall) : ResponseMessage :=
  {| ResponseMessage_Entities :=
       {| Entities_Items := Entities_Items (ResponseMessage_Entities r) ++ entitiesOf cs |};
     ResponseMessage_UIMessages :=
       {| UIMessages_Items := UIMessages_Items (ResponseMessage_UIMessages r) ++ uiMessagesOf cs |} |}.

Definition extendException (x : ExceptionMessage) (cs : list helperCall) : ExceptionMessage :=
  {| ExceptionMessage_Exceptions :=
       {| Exceptions_Items := Exceptions_Items (ExceptionMessage_Exceptions x) ++ exceptionsOf cs |} |}.

Definition lookupCalls : list helperCall :=
  [ callAddUIMessage "resolving" UIMessageDebug;
    callAddEntity "maltego.IPv4Address" "173.230.156.137";
    callAddException "timeout" "504";
    callAddEntity "maltego.IPv4Address" "173.230.156.138";
    callAddUIMessage "done" UIMessageInform ].

Definition linkedEntity : Entity :=
  SetLinkColor (AddProperty (NewEntity "maltego.DNSName" "example" "100")
                  "hostname" "Hostname" Strict "first.example") "#ff0000".

(** [s[n:]], the text after the first [n] bytes (empty when there are
    fewer). *)
Fixpoint dropBytes (n : nat) (s : string) : string :=
  match n, s with
  | O, _ => s
  | S n', String _ s' => dropBytes n' s'
  | S _, EmptyString => EmptyString
  end.

(** The text before the first byte [sep] of [s] and the text after it;
    all of [s] and the empty text when [sep] does not occur. *)
Fixpoint cutAt (sep : ascii) (s : string) : string * string :=
  match s with
  | EmptyString => (EmptyString, EmptyString)
  | String c s' =>
    if Ascii.eqb c sep then (EmptyString, s')
    else let (before, after) := cutAt sep s' in (String c before, after)
  end.

(** The key and the value [ParseLocalArguments] stores for a chunk. *)
Definition keyOf (x : string) : string := fst (cutAt "=" x).
Definition valueOf (x : string) : string := strings.Replace replacer (snd (cutAt "=" x)).

(** The chunks of the arguments after the first, in order: each argument,
    its newlines turned into spaces, is split at the number signs; an
    empty argument has no chunk. *)
Definition chunksOf (args : list string) : list string :=
  flat_map
    (fun arg =>
       let arg := strings.ReplaceAll arg (str1 newline) " " in
       if 0 <? String.length arg then strings.Split arg "#" else [])
    (drop 1 args).

Definition store (values : gmap string string) (x : string) : gmap string string :=
  <[ keyOf x := valueOf x ]> values.

Definition shellArguments : list string :=
  [ "1.2.3.4"; "port=80#note=a\=b#port=443"; EmptyString; "flag" ].

(** ** Line thickness and plurals (utility functions of the package) *)

(** Arithmetic on [uint64] wraps around. *)
Definition uint64 (z : Z) : Z := z mod 2 ^ 64.

Definition isUint64 (z : Z) : Prop := (0 <= z < 2 ^ 64)%Z.

(** [GetThicknessInterval val min max], on unsigned 64-bit values. *)
Definition GetThicknessInterval (val min max : Z) : Z :=
  let min := if (min =? max)%Z then 0%Z else min in
  let interval := (uint64 (max - min) / 5)%Z in
  if (val <=? interval)%Z then 1%Z
  else if (val <=? uint64 (interval * 2))%Z then 2%Z
  else if (val <=? uint64 (interval * 3))%Z then 3%Z
  else if (val <=? uint64 (interval * 4))%Z then 4%Z
  else if (val <=? uint64 (interval * 5))%Z then 5%Z
  else 5%Z.

(** [strings.HasSuffix]. *)
Definition HasSuffix (s suffix : string) : bool :=
  (String.length suffix <=? String.length s)
  && String.eqb (dropBytes (String.length s - String.length suffix) s) suffix.

(** [s[:n]], for [n] up to the length of [s]. *)
Fixpoint takeBytes (n : nat) (s : string) : string :=
  match n, s with
  | S n', String c s' => String c (takeBytes n' s')
  | _, _ => EmptyString
  end.

(** The initial value of the package variable [NoPluralsMap]. *)
Definition NoPluralsMap : gset string := {[ "Software"; "Ethernet" ]}.

(** [Pluralize], reading the map of exceptions [noPlurals] (the value of
    the package variable [NoPluralsMap] at the call). *)
Definition Pluralize (noPlurals : gset string) (name : string) : string :=
  let name :=
    if HasSuffix name "e" || HasSuffix name "w" then
      if bool_decide (name ∈ noPlurals) then name else name +:+ "s"
    else name in
  let name :=
    if HasSuffix name "y" then takeBytes (String.length name - 1) name +:+ "ies"
    else name in
  let name :=
    if HasSuffix name "t" then
      if bool_decide (name ∈ noPlurals) then name else name +:+ "s"
    else name in
  let name :=
    if HasSuffix name "n" then
      if bool_decide (name ∈ noPlurals) then name else name +:+ "s"
    else name in
  name.

(** The last byte of a text. *)
Fixpoint lastByte (s : string) : option ascii :=
  match s with
  | EmptyString => None
  | String c EmptyString => Some c
  | String _ s' => lastByte s'
  end.

(** A final letter after which [Pluralize] appends an s. *)
Definition takesS (c : ascii) : bool :=
  Ascii.eqb c "e" || Ascii.eqb c "w" || Ascii.eqb c "t" || Ascii.eqb c "n".

(** ** Texts and trees the decoder of this file reads back *)

(** A byte of an attribute value or of character data that comes back as
    it was written: printable ASCII other than the two quotes (for which
    the encoder writes numeric references). *)
Definition readable (c : ascii) : bool :=
  let n := byte c in
  (32 <=? n)%Z && (n <=? 126)%Z && negb ((n =? 34)%Z || (n =? 39)%Z).

(** A byte of a CDATA section: printable ASCII, a tab or a newline. *)
Definition cdataByte (c : ascii) : bool :=
  let n := byte c in
  ((32 <=? n)%Z && (n <=? 126)%Z) || (n =? 9)%Z || (n =? 10)%Z.

(** The text of a label: CDATA bytes, without the end mark of a section. *)
Definition cdataText (t : string) : bool :=
  allBytes cdataByte t && negb (Contains t "]]>").

(** An element or attribute name of the model. *)
Definition isName (name : string) : bool :=
  match name with
  | EmptyString => false
  | String c name' => decoder.isNameStart c && allBytes decoder.isNameChar name'
  end.

Definition readableAttr (a : string * string) : bool :=
  isName (fst a) && allBytes readable (snd a).

(** A tree as the marshalling of this package builds them: names, readable
    attribute values, and as children either elements only or one text. *)
Fixpoint readableNode (n : xml.Node) : bool :=
  match n with
  | xml.Element name attrs kids =>
    isName name && forallb readableAttr attrs
    && match kids with
       | [ xml.CharData t ] => allBytes readable t
       | [ xml.CData t ] => cdataText t
       | _ => forallb (fun k => match k with
                                | xml.Element _ _ _ => readableNode k
                                | _ => false
                                end) kids
       end
  | xml.CharData t => allBytes readable t
  | xml.CData t => cdataText t
  end.

(** The tree the decoder builds from the text of a tree: a text child is
    character data, and an empty text is no child. *)
Fixpoint read (n : xml.Node) : xml.Node :=
  match n with
  | xml.Element name attrs kids =>
    xml.Element name attrs
      (flat_map (fun k => match k with
                          | xml.Element _ _ _ => [read k]
                          | xml.CharData t | xml.CData t =>
                            if String.eqb t EmptyString then [] else [xml.CharData t]
                          end) kids)
  | xml.CharData t => xml.CharData t
  | xml.CData t => xml.CharData t
  end.

Definition notDone (st : decoder.lexState) : Prop :=
  match st with
  | decoder.Done _ => False
  | _ => True
  end.

(** * Properties *)

(** ** Strings *)

Lemma append_cons (c : ascii) (s t : string) : String c s +:+ t = String c (s +:+ t).
Proof. reflexivity. Qed.

Lemma append_empty_l (s : string) : EmptyString +:+ s = s.
Proof. reflexivity. Qed.

Lemma append_empty_r (s : string) : s +:+ EmptyString = s.
Proof. induction s as [|c s IH]; [reflexivity|]. rewrite append_cons, IH. reflexivity. Qed.

Lemma append_assoc (s t u : string) : (s +:+ t) +:+ u = s +:+ (t +:+ u).
Proof.
  induction s as [|c s IH]; [reflexivity|].
  rewrite !append_cons, IH. reflexivity.
Qed.

Lemma HasPrefix_empty (s : string) : HasPrefix s EmptyString = true.
Proof. destruct s; reflexivity. Qed.

Lemma HasPrefix_cons (c p : ascii) (s q : string) :
  HasPrefix (String c s) (String p q) = Ascii.eqb p c && HasPrefix s q.
Proof. reflexivity. Qed.

Lemma HasPrefix_app (p s : string) : HasPrefix (p +:+ s) p = true.
Proof.
  induction p as [|c p IH]; [apply HasPrefix_empty|].
  rewrite append_cons, HasPrefix_cons, Ascii.eqb_refl, IH. reflexivity.
Qed.

Lemma Contains_unfold (s sub : string) :
  Contains s sub =
  HasPrefix s sub || match s with EmptyString => false | String _ s' => Contains s' sub end.
Proof. destruct s; reflexivity. Qed.

Lemma Contains_prefix (s sub : string) : HasPrefix s sub = true -> Contains s sub = true.
Proof. intros H. rewrite Contains_unfold, H. reflexivity. Qed.

Lemma Contains_app_r (pre t sub : string) :
  Contains t sub = true -> Contains (pre +:+ t) sub = true.
Proof.
  intros H. induction pre as [|c pre IH]; [exact H|].
  rewrite append_cons, Contains_unfold, IH. apply orb_true_r.
Qed.

(** A string contains whatever stands between two of its parts. *)
Lemma Contains_middle (pre sub post : string) :
  Contains (pre +:+ sub +:+ post) sub = true.
Proof. apply Contains_app_r, Contains_prefix, HasPrefix_app. Qed.

Lemma HasPrefix_split (s sub : string) :
  HasPrefix s sub = true -> exists post, s = sub +:+ post.
Proof.
  revert s. induction sub as [|p sub IH]; intros s H.
  - exists s. reflexivity.
  - destruct s as [|c s]; [discriminate H|].
    rewrite HasPrefix_cons in H. apply andb_true_iff in H as [Hc Hs].
    apply Ascii.eqb_eq in Hc. subst p.
    destruct (IH s Hs) as [post ->]. exists post. reflexivity.
Qed.

Lemma Contains_infix (s sub : string) :
  Contains s sub = true <-> exists pre post, s = pre +:+ sub +:+ post.
Proof.
  split.
  - induction s as [|c s IH]; intros H; rewrite Contains_unfold in H;
      apply orb_true_iff in H as [H|H]; try discriminate H.
    + apply HasPrefix_split in H as [post H]. exists EmptyString, post. exact H.
    + apply HasPrefix_split in H as [post H]. exists EmptyString, post. exact H.
    + destruct (IH H) as (pre & post & ->).
      exists (String c pre), post. reflexivity.
  - intros (pre & post & ->). apply Contains_middle.
Qed.

Lemma Contains_app_l (t post sub : string) :
  Contains t sub = true -> Contains (t +:+ post) sub = true.
Proof.
  intros H. apply Contains_infix in H as (pre & post' & ->).
  rewrite !append_assoc. apply Contains_middle.
Qed.

(** ** C1: [GetFieldByName] on an entity without a field collection *)

Lemma GetFieldByName_nil_Fields (tre : Entity) (name : string) :
  Entity_Fields tre = None -> GetFieldByName tre name = Panics nilDereference.
Proof. unfold GetFieldByName. intros ->. reflexivity. Qed.

Lemma GetFieldByName_returns (tre : Entity) (fields : AdditionalFields) (name : string) :
  Entity_Fields tre = Some fields ->
  GetFieldByName tre name = Returns (rangeFields (AdditionalFields_Items fields) name).
Proof. unfold GetFieldByName. intros ->. reflexivity. Qed.

Lemma rangeFields_absent (items : list Field) (name : string) :
  Forall (fun f => Field_Name f <> name) items -> rangeFields items name = EmptyString.
Proof.
  induction 1 as [|f items Hf _ IH]; [reflexivity|].
  cbn [rangeFields]. apply String.eqb_neq in Hf. rewrite Hf. exact IH.
Qed.

(** With a field collection that is set, a name that no field bears gives
    the empty string. *)
Lemma GetFieldByName_absent (tre : Entity) (fields : AdditionalFields) (name : string) :
  Entity_Fields tre = Some fields ->
  Forall (fun f => Field_Name f <> name) (AdditionalFields_Items fields) ->
  GetFieldByName tre name = Returns EmptyString.
Proof.
  intros Hfields Habsent. rewrite (GetFieldByName_returns _ _ _ Hfields).
  rewrite (rangeFields_absent _ _ Habsent). reflexivity.
Qed.

(** C1 (the code departs from the claim): an entity made by [NewEntity],
    to which no field was ever added, has a nil [Fields] pointer, and
    [GetFieldByName] on it does not return the empty string: it panics with
    a nil pointer dereference. *)
Theorem GetFieldByName_NewEntity_panics :
  Entity_Fields (NewEntity "maltego.DNSName" "alpine.paterva.com" "100") = None
  /\ GetFieldByName (NewEntity "maltego.DNSName" "alpine.paterva.com" "100") "fqdn"
     = Panics nilDereference
  /\ GetFieldByName (NewEntity "maltego.DNSName" "alpine.paterva.com" "100") "fqdn"
     <> Returns EmptyString.
Proof. repeat split. discriminate. Qed.

(** ** C6: escaping a newline *)

Lemma lookup_newline (s : string) :
  strings.lookup (strings.oldnew newlineReplacer) s =
  if HasPrefix s "&#xA;" then Some ("&#xA;", str1 newline) else None.
Proof. unfold strings.lookup. cbn [strings.oldnew newlineReplacer List.find fst]. reflexivity. Qed.

Lemma replaceFrom_newline_cons (c : ascii) (s : string) :
  strings.replaceFrom (strings.oldnew newlineReplacer) 0 (String c s) =
  if HasPrefix (String c s) "&#xA;"
  then String newline (strings.replaceFrom (strings.oldnew newlineReplacer) 4 s)
  else String c (strings.replaceFrom (strings.oldnew newlineReplacer) 0 s).
Proof.
  cbn [strings.replaceFrom]. rewrite lookup_newline.
  destruct (HasPrefix (String c s) "&#xA;"); reflexivity.
Qed.

(** A prefix of the replaced text that holds no newline was a prefix
    of the text before. *)
Lemma replace_newline_prefix (p t : string) :
  absent newline p = true ->
  HasPrefix (strings.replaceFrom (strings.oldnew newlineReplacer) 0 t) p = true ->
  HasPrefix t p = true.
Proof.
  revert t. induction p as [|a p IH]; intros t Hp H.
  - apply HasPrefix_empty.
  - cbn [absent] in Hp. apply andb_true_iff in Hp as [Ha Hp].
    destruct t as [|c t]; [discriminate H|].
    rewrite replaceFrom_newline_cons in H.
    destruct (HasPrefix (String c t) "&#xA;") eqn:E.
    + rewrite HasPrefix_cons in H. apply andb_true_iff in H as [H _].
      rewrite H in Ha. discriminate Ha.
    + rewrite HasPrefix_cons in H |- *. apply andb_true_iff in H as [H1 H2].
      rewrite H1, (IH t Hp H2). reflexivity.
Qed.

Lemma replace_newline_complete (skip : nat) (s : string) :
  Contains (strings.replaceFrom (strings.oldnew newlineReplacer) skip s) "&#xA;" = false.
Proof.
  revert skip. induction s as [|c s IH]; intros skip; [reflexivity|].
  destruct skip as [|k]; [|apply IH].
  rewrite replaceFrom_newline_cons.
  destruct (HasPrefix (String c s) "&#xA;") eqn:E.
  - rewrite Contains_unfold, IH. reflexivity.
  - rewrite Contains_unfold, IH, orb_false_r.
    destruct (HasPrefix (String c (strings.replaceFrom _ 0 s)) "&#xA;") eqn:F;
      [|reflexivity].
    rewrite HasPrefix_cons in F. apply andb_true_iff in F as [F1 F2].
    apply replace_newline_prefix in F2; [|reflexivity].
    rewrite HasPrefix_cons, F1, F2 in E. discriminate E.
Qed.

(** C6: [EscapeText] of the one-byte string holding a newline is that
    same one-byte string, not the entity the XML escaping writes for it:
    the function replaces in the escaped text, and no occurrence of the
    entity is left in any result. *)
Theorem EscapeText_newline :
  EscapeText (str1 newline) = str1 newline
  /\ String.length (EscapeText (str1 newline)) = 1
  /\ EscapeText (str1 newline) <> "&#xA;"
  /\ xml.EscapeText (str1 newline) = "&#xA;"
  /\ (forall text, EscapeText text = strings.Replace newlineReplacer (xml.EscapeText text))
  /\ (forall text, Contains (EscapeText text) "&#xA;" = false).
Proof.
  split; [reflexivity|]. split; [reflexivity|]. split; [discriminate|].
  split; [reflexivity|]. split; [reflexivity|].
  intros text. unfold EscapeText, strings.Replace. apply replace_newline_complete.
Qed.

(** The replacement comes after the escaping: an ampersand of the input is
    escaped first, so the entity spelled out in the input stays text, while
    a newline of the input stays a newline. *)
Example EscapeText_order :
  EscapeText ("a&#xA;b" +:+ str1 newline +:+ "<c>")
  = "a&amp;#xA;b" +:+ str1 newline +:+ "&lt;c&gt;".
Proof. vm_compute. reflexivity. Qed.

(** ** C8: repeated [AddProperty] calls *)

Lemma addProperty_Fields (tre : Entity) (c : propertyCall) :
  Entity_Fields (addProperty tre c) =
  Some {| AdditionalFields_Items := itemsOf tre ++ [fieldOf c] |}.
Proof.
  unfold addProperty, AddProperty, itemsOf. destruct (Entity_Fields tre); reflexivity.
Qed.

Lemma addProperty_itemsOf (tre : Entity) (c : propertyCall) :
  itemsOf (addProperty tre c) = itemsOf tre ++ [fieldOf c].
Proof. unfold itemsOf at 1. rewrite addProperty_Fields. reflexivity. Qed.

Lemma addProperties_itemsOf (cs : list propertyCall) (tre : Entity) :
  itemsOf (addProperties tre cs) = itemsOf tre ++ map fieldOf cs.
Proof.
  revert tre. induction cs as [|c cs IH]; intros tre.
  - cbn. rewrite List.app_nil_r. reflexivity.
  - change (addProperties tre (c :: cs)) with (addProperties (addProperty tre c) cs).
    rewrite IH, addProperty_itemsOf, <- List.app_assoc. reflexivity.
Qed.

Lemma addProperties_Fields (cs : list propertyCall) (c : propertyCall) (tre : Entity) :
  Entity_Fields (addProperties tre (cs ++ [c])) =
  Some {| AdditionalFields_Items := itemsOf tre ++ map fieldOf (cs ++ [c]) |}.
Proof.
  unfold addProperties. rewrite fold_left_app. cbn [fold_left].
  rewrite addProperty_Fields. fold (addProperties tre cs).
  rewrite addProperties_itemsOf, map_app, <- List.app_assoc. reflexivity.
Qed.

Lemma rangeFields_app (l1 l2 : list Field) (name : string) :
  Forall (fun f => Field_Name f <> name) l1 ->
  rangeFields (l1 ++ l2) name = rangeFields l2 name.
Proof.
  induction 1 as [|f l1 Hf _ IH]; [reflexivity|].
  cbn [app rangeFields]. apply String.eqb_neq in Hf. rewrite Hf. exact IH.
Qed.

(** C8: when [AddProperty] is called several times on one entity, every
    call appends one field (none is merged with an earlier one of the same
    name), and [GetFieldByName] for a name returns the text of the first
    field appended under that name, whatever was appended under it later. *)
Theorem AddProperty_never_deduplicates
    (tre : Entity) (name : string) (before after : list propertyCall)
    (first : propertyCall) :
  Forall (fun f => Field_Name f <> name) (itemsOf tre) ->
  Forall (fun c => call_fieldName c <> name) before ->
  call_fieldName first = name ->
  let tre' := addProperties tre (before ++ first :: after) in
  itemsOf tre' = itemsOf tre ++ map fieldOf (before ++ first :: after)
  /\ length (itemsOf tre') = length (itemsOf tre) + length (before ++ first :: after)
  /\ GetFieldByName tre' name = Returns (EscapeText (call_value first)).
Proof.
  intros Hold Hbefore Hfirst tre'. subst tre'.
  assert (Hitems := addProperties_itemsOf (before ++ first :: after) tre).
  split; [exact Hitems|]. split.
  - rewrite Hitems, length_app, length_map. reflexivity.
  - assert (exists fields,
      Entity_Fields (addProperties tre (before ++ first :: after)) = Some fields)
      as [fields Hfields].
    { destruct (exists_last (l := before ++ first :: after)) as (cs & c & E).
      { destruct before; discriminate. }
      rewrite E, addProperties_Fields. eexists. reflexivity. }
    rewrite (GetFieldByName_returns _ _ _ Hfields). f_equal.
    unfold itemsOf in Hitems at 1. rewrite Hfields in Hitems. rewrite Hitems.
    rewrite rangeFields_app by exact Hold.
    rewrite map_app, rangeFields_app.
    + cbn [map rangeFields fieldOf Field_Name Field_Text].
      rewrite Hfirst, String.eqb_refl. reflexivity.
    + clear -Hbefore. induction Hbefore; constructor; assumption.
Qed.

Lemma AddProperty_never_deduplicates_witness :
  itemsOf (addProperties (NewEntity "maltego.DNSName" "example" "100") [firstCall; secondCall])
  = [fieldOf firstCall; fieldOf secondCall]
  /\ GetFieldByName
       (addProperties (NewEntity "maltego.DNSName" "example" "100") [firstCall; secondCall])
       "hostname"
     = Returns "first.example".
Proof.
  destruct (AddProperty_never_deduplicates
              (NewEntity "maltego.DNSName" "example" "100") "hostname"
              [] [secondCall] firstCall) as (H1 & _ & H3).
  - constructor.
  - constructor.
  - reflexivity.
  - split; [exact H1 | exact H3].
Defined.

(** ** Rendering *)

(** Bring a concatenation into right-nested form, without empty parts. *)
Ltac flatten_app :=
  repeat (rewrite append_assoc || rewrite append_empty_l || rewrite append_empty_r).

Lemma Contains_trans (s t u : string) :
  Contains s t = true -> Contains t u = true -> Contains s u = true.
Proof.
  intros Hst Htu.
  apply Contains_infix in Hst as (pre & post & ->).
  apply Contains_app_r, Contains_app_l, Htu.
Qed.

Lemma Contains_refl (s : string) : Contains s s = true.
Proof.
  rewrite <- (append_empty_r s) at 1. apply (Contains_middle EmptyString s EmptyString).
Qed.

Lemma render_Element (name : string) (attrs : list (string * string)) (ks : list xml.Node) :
  xml.render (xml.Element name attrs ks) =
  xml.writeStart name attrs +:+ xml.renderAll ks +:+ xml.writeEnd name.
Proof. reflexivity. Qed.

Lemma renderAll_cons (k : xml.Node) (ks : list xml.Node) :
  xml.renderAll (k :: ks) = xml.render k +:+ xml.renderAll ks.
Proof. reflexivity. Qed.

Lemma renderAll_app (ks1 ks2 : list xml.Node) :
  xml.renderAll (ks1 ++ ks2) = xml.renderAll ks1 +:+ xml.renderAll ks2.
Proof.
  induction ks1 as [|k ks1 IH]; [reflexivity|].
  cbn [app]. rewrite !renderAll_cons, IH, append_assoc. reflexivity.
Qed.

Lemma renderAll_In (k : xml.Node) (ks : list xml.Node) :
  In k ks -> Contains (xml.renderAll ks) (xml.render k) = true.
Proof.
  intros H. apply in_split in H as (ks1 & ks2 & ->).
  rewrite renderAll_app, renderAll_cons. apply Contains_middle.
Qed.

(** The text of an element contains the text of each of its children. *)
Lemma render_child (name : string) (attrs : list (string * string))
    (ks : list xml.Node) (k : xml.Node) :
  In k ks -> Contains (xml.render (xml.Element name attrs ks)) (xml.render k) = true.
Proof.
  intros H. rewrite render_Element.
  apply Contains_app_r, Contains_app_l, renderAll_In, H.
Qed.

Lemma render_stringElement (name value : string) :
  xml.render (stringElement name value) =
  "<" +:+ name +:+ ">" +:+ xml.EscapeText value +:+ "</" +:+ name +:+ ">".
Proof.
  unfold stringElement. rewrite render_Element, renderAll_cons.
  unfold xml.writeStart, xml.writeEnd.
  cbn [map String.concat xml.renderAll fold_right xml.render].
  flatten_app. reflexivity.
Qed.

(** ** C10: what each helper leaves alone *)

Lemma calls_RequestMessage (cs : list helperCall) (tr : Transform) :
  Transform_RequestMessage (calls tr cs) = Transform_RequestMessage tr.
Proof.
  revert tr. induction cs as [|c cs IH]; intros tr; [reflexivity|].
  change (calls tr (c :: cs)) with (calls (call tr c) cs).
  rewrite IH. destruct c; reflexivity.
Qed.

(** C10: [AddEntity] and [AddUIMessage] change the response payload only
    ([AddEntity] its entities, [AddUIMessage] its UI messages),
    [AddException] changes the exception payload only, and none of them
    changes the request payload; a response payload staged before
    [AddException] is still there, unchanged, after it. *)
Theorem helpers_change_their_own_payload (tr : Transform) (a b : string) :
  (Transform_ExceptionMessage (fst (AddEntity tr a b)) = Transform_ExceptionMessage tr
   /\ Transform_RequestMessage (fst (AddEntity tr a b)) = Transform_RequestMessage tr
   /\ ResponseMessage_UIMessages (responseOrNew (fst (AddEntity tr a b)))
      = ResponseMessage_UIMessages (responseOrNew tr))
  /\ (Transform_ExceptionMessage (AddUIMessage tr a b) = Transform_ExceptionMessage tr
      /\ Transform_RequestMessage (AddUIMessage tr a b) = Transform_RequestMessage tr
      /\ ResponseMessage_Entities (responseOrNew (AddUIMessage tr a b))
         = ResponseMessage_Entities (responseOrNew tr))
  /\ (Transform_ResponseMessage (AddException tr a b) = Transform_ResponseMessage tr
      /\ Transform_RequestMessage (AddException tr a b) = Transform_RequestMessage tr)
  /\ (forall cs, Transform_RequestMessage (calls tr cs) = Transform_RequestMessage tr).
Proof.
  repeat split. intros cs. apply calls_RequestMessage.
Qed.

(** ** C4: the entity [AddEntity] adds, as rendered *)

Lemma marshalEntity_NewEntity (typ value weight : string) :
  marshalEntity (NewEntity typ value weight) =
  xml.Element "Entity" [ ("Type", typ) ]
    [ stringElement "Value" value; stringElement "Weight" weight ].
Proof. reflexivity. Qed.

Lemma render_NewEntity (typ value weight : string) :
  xml.render (marshalEntity (NewEntity typ value weight)) =
  "<Entity Type=" +:+ quote +:+ xml.EscapeString typ +:+ quote +:+ ">"
  +:+ "<Value>" +:+ xml.EscapeText value +:+ "</Value>"
  +:+ "<Weight>" +:+ xml.EscapeText weight +:+ "</Weight>" +:+ "</Entity>".
Proof.
  rewrite marshalEntity_NewEntity, render_Element, !renderAll_cons, !render_stringElement.
  unfold xml.writeStart, xml.writeAttr, xml.writeEnd.
  cbn [map String.concat fst snd xml.renderAll fold_right].
  flatten_app. reflexivity.
Qed.

(** The text of an envelope contains the text of every entity of its
    response payload. *)
Lemma ReturnOutput_contains_entity (tr : Transform) (resp : ResponseMessage) (e : Entity) :
  Transform_ResponseMessage tr = Some resp ->
  In e (Entities_Items (ResponseMessage_Entities resp)) ->
  Contains (ReturnOutput tr) (xml.render (marshalEntity e)) = true.
Proof.
  intros Hresp He. unfold ReturnOutput, Marshal, marshalTransform. rewrite Hresp.
  eapply Contains_trans; [apply render_child; left; reflexivity|].
  unfold marshalResponseMessage.
  eapply Contains_trans; [apply render_child; left; reflexivity|].
  unfold marshalEntities. apply render_child, in_map, He.
Qed.

(** C4: [AddEntity typ value] leaves a response payload in the envelope
    (a new one when there was none) whose entities are the former ones and
    one more; that entity is written as one [Entity] element with the
    attribute [Type] set to [typ], a child [Value] holding
    [EscapeText value] and a child [Weight] holding 100, and the text
    [ReturnOutput] gives contains the element. *)
Theorem AddEntity_renders_entity (tr : Transform) (typ value : string) :
  exists resp,
    Transform_ResponseMessage (fst (AddEntity tr typ value)) = Some resp
    /\ Entities_Items (ResponseMessage_Entities resp)
       = Entities_Items (ResponseMessage_Entities (responseOrNew tr))
         ++ [snd (AddEntity tr typ value)]
    /\ marshalEntity (snd (AddEntity tr typ value))
       = xml.Element "Entity" [ ("Type", typ) ]
           [ xml.Element "Value" [] [xml.CharData (EscapeText value)];
             xml.Element "Weight" [] [xml.CharData "100"] ]
    /\ xml.render (marshalEntity (snd (AddEntity tr typ value)))
       = "<Entity Type=" +:+ quote +:+ xml.EscapeString typ +:+ quote +:+ ">"
         +:+ "<Value>" +:+ xml.EscapeText (EscapeText value) +:+ "</Value>"
         +:+ "<Weight>100</Weight></Entity>"
    /\ Contains (ReturnOutput (fst (AddEntity tr typ value)))
                (xml.render (marshalEntity (snd (AddEntity tr typ value)))) = true.
Proof.
  eexists. split; [reflexivity|]. split; [reflexivity|]. split; [reflexivity|]. split.
  - cbn [AddEntity snd]. rewrite render_NewEntity. reflexivity.
  - eapply ReturnOutput_contains_entity; [reflexivity|].
    cbn [ResponseMessage_Entities Entities_Items AddEntity snd].
    apply in_or_app. right. left. reflexivity.
Qed.

(** ** C5: empty strings are written, nil payloads are not *)

Lemma marshalEntity_children (e : Entity) :
  exists before after,
    xml.children (marshalEntity e) =
    before ++ [ stringElement "Value" (Entity_Value e);
                stringElement "Weight" (Entity_Weight e) ] ++ after.
Proof. unfold marshalEntity. cbn [xml.children]. eexists _, _. reflexivity. Qed.

Lemma marshalEntity_In (e : Entity) (k : xml.Node) :
  In k [ stringElement "Value" (Entity_Value e); stringElement "Weight" (Entity_Weight e) ] ->
  In k (xml.children (marshalEntity e)).
Proof.
  intros H. destruct (marshalEntity_children e) as (before & after & ->).
  apply in_or_app. right. apply in_or_app. left. exact H.
Qed.

Lemma marshalEntity_render_child (e : Entity) (k : xml.Node) :
  In k (xml.children (marshalEntity e)) ->
  Contains (xml.render (marshalEntity e)) (xml.render k) = true.
Proof. unfold marshalEntity. cbn [xml.children]. apply render_child. Qed.

(** What is written for the three payload pointers of an envelope. *)
Lemma marshalTransform_children (tr : Transform) :
  xml.children (marshalTransform tr) =
  optional marshalResponseMessage (Transform_ResponseMessage tr)
  ++ optional marshalExceptionMessage (Transform_ExceptionMessage tr)
  ++ optional marshalRequestMessage (Transform_RequestMessage tr).
Proof. reflexivity. Qed.

(** C5: an entity whose [Value] (or [Weight]) is the empty string is
    still written with a [Value] (or [Weight]) element, an empty one; a
    payload pointer of the envelope that is nil writes nothing: the
    children of the root are the payloads that are set, and an envelope
    with no payload is the root element alone. *)
Theorem empty_strings_rendered_nil_payloads_not (e : Entity) (tr : Transform) :
  (Entity_Value e = EmptyString ->
     In (xml.Element "Value" [] [xml.CharData EmptyString]) (xml.children (marshalEntity e))
     /\ Contains (xml.render (marshalEntity e)) "<Value></Value>" = true)
  /\ (Entity_Weight e = EmptyString ->
     In (xml.Element "Weight" [] [xml.CharData EmptyString]) (xml.children (marshalEntity e))
     /\ Contains (xml.render (marshalEntity e)) "<Weight></Weight>" = true)
  /\ (Transform_ResponseMessage tr = None ->
     ~ In "MaltegoTransformResponseMessage" (xml.childNames (marshalTransform tr)))
  /\ (Transform_ExceptionMessage tr = None ->
     ~ In "MaltegoTransformExceptionMessage" (xml.childNames (marshalTransform tr)))
  /\ (Transform_RequestMessage tr = None ->
     ~ In "MaltegoTransformRequestMessage" (xml.childNames (marshalTransform tr)))
  /\ (Transform_ResponseMessage tr = None -> Transform_ExceptionMessage tr = None ->
      Transform_RequestMessage tr = None ->
      ReturnOutput tr = "<MaltegoMessage></MaltegoMessage>").
Proof.
  split; [|split]; [| |repeat split].
  - intros H.
    assert (In (xml.Element "Value" [] [xml.CharData EmptyString])
               (xml.children (marshalEntity e))) as Hin.
    { apply marshalEntity_In. rewrite H. left. reflexivity. }
    split; [exact Hin|]. apply marshalEntity_render_child in Hin. exact Hin.
  - intros H.
    assert (In (xml.Element "Weight" [] [xml.CharData EmptyString])
               (xml.children (marshalEntity e))) as Hin.
    { apply marshalEntity_In. rewrite H. right. left. reflexivity. }
    split; [exact Hin|]. apply marshalEntity_render_child in Hin. exact Hin.
  - intros H. unfold marshalTransform. rewrite H.
    destruct (Transform_ExceptionMessage tr), (Transform_RequestMessage tr);
      cbn; intuition discriminate.
  - intros H. unfold marshalTransform. rewrite H.
    destruct (Transform_ResponseMessage tr), (Transform_RequestMessage tr);
      cbn; intuition discriminate.
  - intros H. unfold marshalTransform. rewrite H.
    destruct (Transform_ResponseMessage tr), (Transform_ExceptionMessage tr);
      cbn; intuition discriminate.
  - intros H1 H2 H3. unfold ReturnOutput, Marshal, marshalTransform.
    rewrite H1, H2, H3. reflexivity.
Qed.

Lemma empty_strings_rendered_nil_payloads_not_witness :
  (Contains (xml.render (marshalEntity blankEntity)) "<Value></Value>" = true
   /\ Contains (xml.render (marshalEntity blankEntity)) "<Weight></Weight>" = true)
  /\ ReturnOutput zeroTransform = "<MaltegoMessage></MaltegoMessage>".
Proof.
  destruct (empty_strings_rendered_nil_payloads_not blankEntity zeroTransform)
    as (HV & HW & _ & _ & _ & Hout).
  split; [split|].
  - apply HV. reflexivity.
  - apply HW. reflexivity.
  - apply Hout; reflexivity.
Defined.

(** ** C7: decoding the request of the scenario *)

(** C7: decoding the request text of the scenario into an empty envelope
    sets the request payload and no other; the payload has exactly one
    entity, of type DNSName, value alpine.paterva.com and weight 0, and
    the soft and hard limits are both 256. *)
Theorem Unmarshal_dnsNameRequest :
  Unmarshal dnsNameRequest zeroTransform = decoder.Decoded dnsNameEnvelope
  /\ Transform_ResponseMessage dnsNameEnvelope = None
  /\ Transform_ExceptionMessage dnsNameEnvelope = None
  /\ (exists req e,
        Transform_RequestMessage dnsNameEnvelope = Some req
        /\ Entities_Items (RequestMessage_Entities req) = [e]
        /\ Entity_Type e = "DNSName"
        /\ Entity_Value e = "alpine.paterva.com"
        /\ Entity_Weight e = "0"
        /\ Limits_SoftLimit (RequestMessage_Limits req) = "256"
        /\ Limits_HardLimit (RequestMessage_Limits req) = "256").
Proof.
  split; [vm_compute; reflexivity|]. split; [reflexivity|]. split; [reflexivity|].
  eexists _, _. repeat split.
Qed.

(** ** C2 and C3: which payloads are rendered *)

Lemma named_In (x name : string) (written : bool) : In x (named name written) -> x = name.
Proof. destruct written; cbn; [intros [H|[]]; symmetry; exact H | intros []]. Qed.

Lemma childNames_marshalTransform (tr : Transform) :
  xml.childNames (marshalTransform tr) =
  named "MaltegoTransformResponseMessage" (isSet (Transform_ResponseMessage tr))
  ++ named "MaltegoTransformExceptionMessage" (isSet (Transform_ExceptionMessage tr))
  ++ named "MaltegoTransformRequestMessage" (isSet (Transform_RequestMessage tr)).
Proof.
  unfold marshalTransform.
  destruct (Transform_ResponseMessage tr), (Transform_ExceptionMessage tr),
    (Transform_RequestMessage tr); reflexivity.
Qed.

Lemma calls_cons (tr : Transform) (c : helperCall) (cs : list helperCall) :
  calls tr (c :: cs) = calls (call tr c) cs.
Proof. reflexivity. Qed.

Lemma calls_ResponseMessage (cs : list helperCall) (tr : Transform) :
  isSet (Transform_ResponseMessage (calls tr cs)) =
  isSet (Transform_ResponseMessage tr) || existsb stagesResponse cs.
Proof.
  revert tr. induction cs as [|c cs IH]; intros tr.
  - cbn. rewrite orb_false_r. reflexivity.
  - rewrite calls_cons, IH. cbn [existsb].
    destruct c; cbn [call stagesResponse AddEntity AddUIMessage AddException fst
                     Transform_ResponseMessage isSet];
      rewrite ?orb_true_r, ?orb_false_l; reflexivity.
Qed.

Lemma calls_ExceptionMessage (cs : list helperCall) (tr : Transform) :
  isSet (Transform_ExceptionMessage (calls tr cs)) =
  isSet (Transform_ExceptionMessage tr) || existsb stagesException cs.
Proof.
  revert tr. induction cs as [|c cs IH]; intros tr.
  - cbn. rewrite orb_false_r. reflexivity.
  - rewrite calls_cons, IH. cbn [existsb].
    destruct c; cbn [call stagesException AddEntity AddUIMessage AddException fst
                     Transform_ExceptionMessage isSet];
      rewrite ?orb_true_r, ?orb_false_l; reflexivity.
Qed.

(** C2 as stated fails: after [AddEntity] and then [AddException] on an
    empty envelope, the text of [ReturnOutput] has both the response element
    and the exception element as children of the root, and a reader of that
    text finds both payloads. *)
Lemma ReturnOutput_renders_both_payloads :
  ReturnOutput mixedEnvelope = mixedOutput
  /\ xml.childNames (marshalTransform mixedEnvelope)
     = [ "MaltegoTransformResponseMessage"; "MaltegoTransformExceptionMessage" ]
  /\ Contains (ReturnOutput mixedEnvelope) "<MaltegoTransformResponseMessage>" = true
  /\ Contains (ReturnOutput mixedEnvelope) "<MaltegoTransformExceptionMessage>" = true
  /\ Unmarshal (ReturnOutput mixedEnvelope) zeroTransform = decoder.Decoded mixedEnvelope.
Proof. repeat split; vm_compute; reflexivity. Qed.

(** C2, amended: [ReturnOutput] writes every payload that is set.  After a
    sequence of [AddEntity], [AddUIMessage] and [AddException] calls the
    root has a response element exactly when the envelope had a response
    payload or the sequence holds an [AddEntity] or [AddUIMessage] call, an
    exception element exactly when it had an exception payload or the
    sequence holds an [AddException] call, and a request element exactly
    when it had a request payload. *)
Theorem ReturnOutput_renders_staged_payloads (tr : Transform) (cs : list helperCall) :
  ReturnOutput (calls tr cs) = xml.render (marshalTransform (calls tr cs))
  /\ xml.childNames (marshalTransform (calls tr cs))
     = named "MaltegoTransformResponseMessage"
         (isSet (Transform_ResponseMessage tr) || existsb stagesResponse cs)
       ++ named "MaltegoTransformExceptionMessage"
         (isSet (Transform_ExceptionMessage tr) || existsb stagesException cs)
       ++ named "MaltegoTransformRequestMessage" (isSet (Transform_RequestMessage tr)).
Proof.
  split; [reflexivity|].
  rewrite childNames_marshalTransform, calls_ResponseMessage, calls_ExceptionMessage,
    calls_RequestMessage.
  reflexivity.
Qed.

(** C3 as stated fails for some envelopes: when the envelope carries the
    request it was decoded from, [ThrowExceptions] writes the request
    element after the exception element, so the exception element is not
    the only child of the root; and when no exception was added, no
    exception element is written at all. *)
Lemma ThrowExceptions_request_sibling :
  snd (ThrowExceptions failedLookup) = failedLookupOutput
  /\ xml.childNames (marshalTransform (fst (ThrowExceptions failedLookup)))
     = [ "MaltegoTransformExceptionMessage"; "MaltegoTransformRequestMessage" ]
  /\ xml.childNames (marshalTransform (fst (ThrowExceptions failedLookup)))
     <> [ "MaltegoTransformExceptionMessage" ]
  /\ snd (ThrowExceptions zeroTransform) = "<MaltegoMessage></MaltegoMessage>"
  /\ xml.childNames (marshalTransform (fst (ThrowExceptions zeroTransform)))
     <> [ "MaltegoTransformExceptionMessage" ].
Proof.
  split; [vm_compute; reflexivity|]. split; [vm_compute; reflexivity|].
  split; [vm_compute; discriminate|]. split; [vm_compute; reflexivity|].
  vm_compute; discriminate.
Qed.

(** C3, amended: [ThrowExceptions] sets the response payload to nil and
    then marshals, so its text never has a response element, whatever was
    added before; the root's children are the exception element, when an
    exception payload is set, followed by the request element, when a
    request payload is set.  The exception element is the only child when
    an exception was added and the envelope carries no request. *)
Theorem ThrowExceptions_clears_response (tr : Transform) (cs : list helperCall) :
  Transform_ResponseMessage (fst (ThrowExceptions (calls tr cs))) = None
  /\ snd (ThrowExceptions (calls tr cs))
     = xml.render (marshalTransform (fst (ThrowExceptions (calls tr cs))))
  /\ xml.children (marshalTransform (fst (ThrowExceptions (calls tr cs))))
     = optional marshalExceptionMessage (Transform_ExceptionMessage (calls tr cs))
       ++ optional marshalRequestMessage (Transform_RequestMessage tr)
  /\ xml.childNames (marshalTransform (fst (ThrowExceptions (calls tr cs))))
     = named "MaltegoTransformExceptionMessage"
         (isSet (Transform_ExceptionMessage tr) || existsb stagesException cs)
       ++ named "MaltegoTransformRequestMessage" (isSet (Transform_RequestMessage tr))
  /\ ~ In "MaltegoTransformResponseMessage"
         (xml.childNames (marshalTransform (fst (ThrowExceptions (calls tr cs)))))
  /\ (forall exc,
        Transform_ExceptionMessage (calls tr cs) = Some exc ->
        Transform_RequestMessage tr = None ->
        xml.children (marshalTransform (fst (ThrowExceptions (calls tr cs))))
        = [ marshalExceptionMessage exc ]
        /\ snd (ThrowExceptions (calls tr cs))
           = "<MaltegoMessage>" +:+ xml.render (marshalExceptionMessage exc)
             +:+ "</MaltegoMessage>").
Proof.
  assert (Hnames :
    xml.childNames (marshalTransform (fst (ThrowExceptions (calls tr cs))))
    = named "MaltegoTransformExceptionMessage"
        (isSet (Transform_ExceptionMessage tr) || existsb stagesException cs)
      ++ named "MaltegoTransformRequestMessage" (isSet (Transform_RequestMessage tr))).
  { rewrite childNames_marshalTransform.
    cbn [ThrowExceptions fst Transform_ResponseMessage Transform_ExceptionMessage
         Transform_RequestMessage isSet named app].
    rewrite calls_ExceptionMessage, calls_RequestMessage. reflexivity. }
  split; [reflexivity|]. split; [reflexivity|]. split.
  { rewrite marshalTransform_children.
    cbn [ThrowExceptions fst Transform_ResponseMessage Transform_ExceptionMessage
         Transform_RequestMessage optional app].
    rewrite calls_RequestMessage. reflexivity. }
  split; [exact Hnames|]. split.
  { rewrite Hnames. intros Hin. apply in_app_or in Hin as [Hin|Hin].
    - apply named_In in Hin. discriminate Hin.
    - apply named_In in Hin. discriminate Hin. }
  intros exc E Hreq.
  assert (Hkids :
    xml.children (marshalTransform (fst (ThrowExceptions (calls tr cs))))
    = [ marshalExceptionMessage exc ]).
  { rewrite marshalTransform_children.
    cbn [ThrowExceptions fst Transform_ResponseMessage Transform_ExceptionMessage
         Transform_RequestMessage optional app].
    rewrite calls_RequestMessage, Hreq, E. reflexivity. }
  split; [exact Hkids|].
  cbn [ThrowExceptions snd]. unfold Marshal, marshalTransform.
  cbn [Transform_ResponseMessage Transform_ExceptionMessage Transform_RequestMessage
       optional app].
  rewrite calls_RequestMessage, Hreq, E. cbn [optional app].
  rewrite render_Element, renderAll_cons.
  unfold xml.writeStart, xml.writeEnd. cbn [map String.concat xml.renderAll fold_right].
  flatten_app. reflexivity.
Qed.

Lemma ThrowExceptions_clears_response_witness :
  xml.childNames (marshalTransform (fst (ThrowExceptions (calls zeroTransform thrown))))
  = [ "MaltegoTransformExceptionMessage" ]
  /\ snd (ThrowExceptions (calls zeroTransform thrown)) = thrownOutput.
Proof.
  destruct (ThrowExceptions_clears_response zeroTransform thrown)
    as (_ & _ & _ & Hnames & _ & Hsole).
  split; [exact Hnames|].
  destruct (Hsole (exceptionOrNew (calls zeroTransform thrown))) as [_ Hout];
    [reflexivity | reflexivity |].
  rewrite Hout. vm_compute. reflexivity.
Defined.

(** ** C9: the arity check of [ParseLocalArguments] *)

Lemma splitFrom_cons (sep : string) (s : string) (skip : nat) (cur : string) :
  exists x l, strings.splitFrom sep skip cur s = x :: l.
Proof.
  revert skip cur. induction s as [|c s IH]; intros skip cur.
  - eexists _, _. reflexivity.
  - cbn [strings.splitFrom]. destruct skip as [|k]; [|apply IH].
    destruct (HasPrefix (String c s) sep); [eexists _, _; reflexivity | apply IH].
Qed.

(** [Split] never gives the empty slice. *)
Lemma Split_cons (s sep : string) : exists x l, strings.Split s sep = x :: l.
Proof. apply splitFrom_cons. Qed.

Lemma bind_Returns {A B : Type} (a : A) (k : A -> outcome B) :
  (Returns a ≫= k) = k a.
Proof. reflexivity. Qed.

Lemma rangeOver_returns {A S : Type} (body : S -> A -> outcome S) :
  (forall s a, exists s', body s a = Returns s') ->
  forall l s, exists s', rangeOver body l s = Returns s'.
Proof.
  intros Hbody l. induction l as [|a l IH]; intros s.
  - exists s. reflexivity.
  - cbn [rangeOver]. destruct (Hbody s a) as [s' ->]. rewrite bind_Returns. apply IH.
Qed.

(** The body of the inner loop reads [kv[0]] and, when [kv] has two
    elements, [kv[1]]: both exist. *)
Lemma parseVar_returns (values : gmap string string) (x : string) :
  exists values', parseVar values x = Returns values'.
Proof.
  unfold parseVar. destruct (Split_cons x "=") as (k & rest & ->).
  destruct (length (k :: rest) =? 2) eqn:E.
  - destruct rest as [|v [|? ?]]; try discriminate E. eexists. reflexivity.
  - eexists. reflexivity.
Qed.

Lemma parseArg_returns (values : gmap string string) (arg : string) :
  exists values', parseArg values arg = Returns values'.
Proof.
  unfold parseArg. destruct (0 <? String.length _).
  - apply rangeOver_returns. intros s a. apply parseVar_returns.
  - eexists. reflexivity.
Qed.

(** C9: with fewer than two arguments [ParseLocalArguments] ends the
    process through [log.Fatal] and gives no result; with two or more it
    returns, neither exiting nor panicking, and the value of its result is
    the first argument. *)
Theorem ParseLocalArguments_arity (args : list string) :
  (length args < 2 ->
     ParseLocalArguments args = Fatal (fatalLine args)
     /\ forall lt, ParseLocalArguments args <> Returns lt)
  /\ (2 <= length args ->
     exists lt,
       ParseLocalArguments args = Returns lt
       /\ head args = Some (LocalTransform_Value lt)).
Proof.
  unfold ParseLocalArguments. split.
  - intros H. apply Nat.ltb_lt in H. rewrite H. split; [reflexivity|].
    intros lt. discriminate.
  - intros H. assert ((length args <? 2) = false) as -> by (apply Nat.ltb_ge; exact H).
    destruct args as [|a0 args]; [cbn in H; lia|].
    cbn [index lookup list_lookup]. rewrite bind_Returns.
    destruct (1 <? length (a0 :: args)).
    + destruct (rangeOver_returns parseArg parseArg_returns (drop 1 (a0 :: args)) ∅)
        as [values ->].
      rewrite bind_Returns. eexists. split; reflexivity.
    + rewrite bind_Returns. eexists. split; reflexivity.
Qed.

Lemma ParseLocalArguments_arity_witness :
  ParseLocalArguments [ "1.2.3.4" ]
  = Fatal "need at least 2 arguments, got 1: [1.2.3.4]"
  /\ exists lt,
       ParseLocalArguments [ "1.2.3.4"; "fqdn=example.com#note=a\=b" ] = Returns lt
       /\ head [ "1.2.3.4"; "fqdn=example.com#note=a\=b" ] = Some (LocalTransform_Value lt).
Proof.
  split.
  - destruct (ParseLocalArguments_arity [ "1.2.3.4" ]) as [Hfatal _].
    destruct Hfatal as [Hfatal _]; [cbn; lia|]. exact Hfatal.
  - destruct (ParseLocalArguments_arity [ "1.2.3.4"; "fqdn=example.com#note=a\=b" ])
      as [_ Hret].
    apply Hret. cbn. lia.
Defined.

(** ** The tests of the package, on the model *)

Example test_ParseMaltegoToTDS :
  Unmarshal maltegoToTDS zeroTransform = decoder.Decoded maltegoToTDSEnvelope.
Proof. vm_compute. reflexivity. Qed.

Example test_ParseTDSToMaltego :
  Unmarshal tdsToMaltego zeroTransform = decoder.Decoded tdsToMaltegoEnvelope.
Proof. vm_compute. reflexivity. Qed.

Example test_TransformFromStructure : Marshal fromStructure = expTransformFromStructure.
Proof. vm_compute. reflexivity. Qed.

Example test_TransformViaHelpers :
  ReturnOutput (calls zeroTransform viaHelpers) = expTransformViaHelpers.
Proof. vm_compute. reflexivity. Qed.

Example test_TransformEntity : xml.render (marshalEntity testEntity) = expTransformEntity.
Proof. vm_compute. reflexivity. Qed.

Example test_TransformException :
  Marshal
    {| Transform_ResponseMessage := None;
       Transform_ExceptionMessage :=
         Some {| ExceptionMessage_Exceptions :=
                   {| Exceptions_Items :=
                        [ {| Exception_Text := "oops"; Exception_Code := "errorCode" |} ] |} |};
       Transform_RequestMessage := None |}
  = expTransformException.
Proof. vm_compute. reflexivity. Qed.

Example test_TransformThrowException :
  snd (ThrowExceptions (AddException zeroTransform "oops" "errorCode"))
  = expTransformException.
Proof. vm_compute. reflexivity. Qed.

Example test_Label :
  xml.render (marshalDisplayLabel (NewDisplayLabel "text" "name")) = expLabel.
Proof. vm_compute. reflexivity. Qed.

Example test_ParseLocalArguments :
  exists lt,
    ParseLocalArguments localArguments = Returns lt
    /\ LocalTransform_Values lt !! "fqdn" = Some "pãypal.com xn--pypal-9qa.com registered"
    /\ LocalTransform_Values lt !! "ips" = Some "34.102.136.180"
    /\ size (LocalTransform_Values lt) = 6.
Proof. eexists. split; [reflexivity|]. vm_compute. repeat split. Qed.

(** The text an envelope renders to is read back as the same envelope, for
    the envelope of the helper test. *)
Example Unmarshal_ReturnOutput_viaHelpers :
  Unmarshal (ReturnOutput (calls zeroTransform viaHelpers)) zeroTransform
  = decoder.Decoded (calls zeroTransform viaHelpers).
Proof. vm_compute. reflexivity. Qed.

(** The value written for an entity is escaped once more by the encoder,
    so that a reader of the text gets [EscapeText value] back. *)
Example AddEntity_value_read_back :
  ReturnOutput (fst (AddEntity zeroTransform "maltego.Phrase" "R&D <lab>"))
  = "<MaltegoMessage><MaltegoTransformResponseMessage><Entities><Entity Type="
    +:+ quote +:+ "maltego.Phrase" +:+ quote
    +:+ "><Value>R&amp;amp;D &amp;lt;lab&amp;gt;</Value><Weight>100</Weight></Entity>"
    +:+ "</Entities><UIMessages></UIMessages></MaltegoTransformResponseMessage></MaltegoMessage>"
  /\ Unmarshal (ReturnOutput (fst (AddEntity zeroTransform "maltego.Phrase" "R&D <lab>")))
       zeroTransform
     = decoder.Decoded (fst (AddEntity zeroTransform "maltego.Phrase" "R&D <lab>"))
  /\ Entity_Value (snd (AddEntity zeroTransform "maltego.Phrase" "R&D <lab>"))
     = "R&amp;D &lt;lab&gt;".
Proof. repeat split; vm_compute; reflexivity. Qed.

(** * Further properties of the code *)

(** ** [EscapeText]: what the result never holds, and what it leaves alone *)

Lemma absent_append (x : ascii) (s t : string) :
  absent x (s +:+ t) = absent x s && absent x t.
Proof.
  induction s as [|c s IH]; [reflexivity|].
  rewrite append_cons. cbn [absent]. rewrite IH, andb_assoc. reflexivity.
Qed.

Lemma eqb_byte (a b : ascii) : Ascii.eqb a b = true -> byte a = byte b.
Proof. intros H. apply Ascii.eqb_eq in H. subst. reflexivity. Qed.

Lemma neq_byte (a b : ascii) : byte a <> byte b -> Ascii.eqb a b = false.
Proof.
  intros H. destruct (Ascii.eqb a b) eqn:E; [|reflexivity].
  apply eqb_byte in E. contradiction.
Qed.

Lemma first_lead (p0 : Z) (sz : nat) (lo hi : Z) :
  utf8.first p0 = utf8.lead sz lo hi -> (194 <= p0)%Z /\ (128 <= lo)%Z.
Proof.
  unfold utf8.first, utf8.locb, utf8.hicb.
  repeat (match goal with
          | |- context [if ?b then _ else _] => destruct b eqn:?
          end); intros H; inversion H; subst; split; lia.
Qed.

Lemma first_ascii (p0 : Z) : (p0 < 128)%Z -> utf8.first p0 = utf8.ascii_byte.
Proof. intros H. unfold utf8.first. apply Z.ltb_lt in H. rewrite H. reflexivity. Qed.

Lemma DecodeRune_ascii (c : ascii) (s : string) :
  (byte c < 128)%Z -> utf8.DecodeRune (String c s) = (byte c, 1).
Proof. intros H. unfold utf8.DecodeRune. rewrite (first_ascii _ H). reflexivity. Qed.

(** What [DecodeRune] tells about the bytes: a rune of width one is an
    ASCII byte or the error rune; the bytes of a longer rune are all 128 or
    more, and all there. *)
Lemma DecodeRune_bytes (c : ascii) (s : string) (r : Z) (w : nat) :
  utf8.DecodeRune (String c s) = (r, w) ->
  high (w - 1) s = true
  /\ ((w = 1 /\ (((byte c < 128)%Z /\ r = byte c) \/ r = utf8.RuneError))
      \/ (128 <= byte c)%Z).
Proof.
  unfold utf8.DecodeRune.
  destruct (utf8.first (byte c)) as [| |sz lo hi] eqn:F.
  - intros H. inversion H; subst. split; [reflexivity|]. left. split; [reflexivity|].
    left. split; [|reflexivity]. unfold utf8.first in F.
    destruct (byte c <? 128)%Z eqn:E; [apply Z.ltb_lt in E; exact E|].
    repeat (match type of F with
            | (if ?b then _ else _) = _ => destruct b; try discriminate F
            end).
  - intros H. inversion H; subst. split; [reflexivity|]. left. split; [reflexivity|].
    right. reflexivity.
  - apply first_lead in F as [Hc Hlo].
    assert (Herr : forall r' w', (utf8.RuneError, 1) = (r', w') ->
              high (w' - 1) s = true
              /\ ((w' = 1 /\ (((byte c < 128)%Z /\ r' = byte c) \/ r' = utf8.RuneError))
                  \/ (128 <= byte c)%Z)).
    { intros r' w' H. inversion H; subst. split; [reflexivity|]. right. lia. }
    destruct s as [|c1 s1]; [apply Herr|].
    destruct ((byte c1 <? lo)%Z || (hi <? byte c1)%Z) eqn:E1; [apply Herr|].
    apply orb_false_iff in E1 as [E1 _]. apply Z.ltb_ge in E1.
    assert (H1 : (128 <=? byte c1)%Z = true) by (apply Z.leb_le; lia).
    destruct (sz <=? 2).
    { intros H. inversion H; subst. cbn [Nat.sub high]. rewrite H1.
      split; [reflexivity|]. right. lia. }
    destruct s1 as [|c2 s2]; [apply Herr|].
    destruct (utf8.continuation (byte c2)) eqn:E2; cbn [negb]; [|apply Herr].
    assert (H2 : (128 <=? byte c2)%Z = true).
    { unfold utf8.continuation, utf8.locb in E2. apply andb_true_iff in E2 as [E2 _].
      exact E2. }
    destruct (sz <=? 3).
    { intros H. inversion H; subst. cbn [Nat.sub high]. rewrite H1, H2.
      split; [reflexivity|]. right. lia. }
    destruct s2 as [|c3 s3]; [apply Herr|].
    destruct (utf8.continuation (byte c3)) eqn:E3; cbn [negb]; [|apply Herr].
    assert (H3 : (128 <=? byte c3)%Z = true).
    { unfold utf8.continuation, utf8.locb in E3. apply andb_true_iff in E3 as [E3 _].
      exact E3. }
    intros H. inversion H; subst. cbn [Nat.sub high]. rewrite H1, H2, H3.
    split; [reflexivity|]. right. lia.
Qed.

Lemma chr_byte (c : ascii) : chr (byte c) = c.
Proof. unfold chr, byte. rewrite N2Z.id. apply ascii_N_embedding. Qed.

(** The markup characters other than the ampersand. *)
Lemma isMarkup_cases (x : ascii) :
  isMarkup x = true -> (byte x =? 38)%Z = false ->
  x = chr 34 \/ x = chr 39 \/ x = chr 60 \/ x = chr 62.
Proof.
  unfold isMarkup. intros H Hamp. rewrite Hamp in H.
  rewrite <- (chr_byte x).
  repeat (apply orb_true_iff in H as [H|H]); try discriminate H;
    apply Z.eqb_eq in H; rewrite H; auto.
Qed.

(** Every text the switch of [escapeText] writes is free of the markup
    characters other than the ampersand that starts it. *)
Lemma escapeOf_absent (x : ascii) (b : bool) (r : Z) (w : nat) (esc : string) :
  isMarkup x = true -> (byte x =? 38)%Z = false ->
  xml.escapeOf b r w = Some esc -> absent x esc = true.
Proof.
  intros Hx Hamp. unfold xml.escapeOf.
  repeat (match goal with
          | |- context [if ?c then _ else _] => destruct c
          end);
    intros H; inversion H; subst;
    destruct (isMarkup_cases x Hx Hamp) as [->|[->|[->| ->]]]; reflexivity.
Qed.

(** A markup character other than the ampersand is escaped wherever it
    stands as a rune of its own. *)
Lemma escapeOf_markup (x : ascii) (b : bool) :
  isMarkup x = true -> (byte x =? 38)%Z = false ->
  (byte x < 128)%Z /\ exists esc, xml.escapeOf b (byte x) 1 = Some esc.
Proof.
  intros Hx Hamp.
  destruct (isMarkup_cases x Hx Hamp) as [->|[->|[->| ->]]];
    (split; [vm_compute; reflexivity | eexists; reflexivity]).
Qed.

Lemma escapeOf_RuneError (b : bool) : xml.escapeOf b utf8.RuneError 1 = Some xml.escFFFD.
Proof. reflexivity. Qed.

(** The loop of [escapeText] never writes a markup character (other than
    the ampersand of an escape), provided the bytes it is about to copy
    belong to a rune of several bytes. *)
Lemma escapeFrom_absent (x : ascii) (b : bool) :
  isMarkup x = true -> (byte x =? 38)%Z = false ->
  forall (s : string) (pending : nat) (keep : bool),
    (keep = true -> high pending s = true) ->
    absent x (xml.escapeFrom b pending keep s) = true.
Proof.
  intros Hx Hamp. destruct (escapeOf_markup x b Hx Hamp) as [Hlt [escx Hescx]].
  induction s as [|c s IH]; intros pending keep Hhigh; [reflexivity|].
  cbn [xml.escapeFrom]. destruct pending as [|p].
  - destruct (utf8.DecodeRune (String c s)) as [r w] eqn:D.
    apply DecodeRune_bytes in D as [Hrest Hfirst].
    destruct (xml.escapeOf b r w) as [esc|] eqn:E.
    + rewrite absent_append, (escapeOf_absent x b r w esc Hx Hamp E).
      apply IH. discriminate.
    + cbn [absent]. rewrite (IH (w - 1) true (fun _ => Hrest)), andb_true_r.
      apply negb_true_iff, neq_byte.
      destruct Hfirst as [[-> [[Hc ->]| ->]]|Hc].
      * intros Heq. rewrite Heq, Hescx in E. discriminate E.
      * rewrite escapeOf_RuneError in E. discriminate E.
      * lia.
  - destruct keep.
    + specialize (Hhigh eq_refl). cbn [high] in Hhigh.
      apply andb_true_iff in Hhigh as [Hc Hp]. apply Z.leb_le in Hc.
      cbn [absent]. rewrite (IH p true (fun _ => Hp)), andb_true_r.
      apply negb_true_iff, neq_byte. lia.
    + apply IH. discriminate.
Qed.

(** Replacing keeps a byte out that neither the text nor the new strings
    hold. *)
Lemma replaceFrom_absent (x : ascii) (pairs : list (string * string)) :
  Forall (fun p => absent x (snd p) = true) pairs ->
  forall (s : string) (skip : nat),
    absent x s = true -> absent x (strings.replaceFrom pairs skip s) = true.
Proof.
  intros Hnew. induction s as [|c s IH]; intros skip Hs; [reflexivity|].
  cbn [absent] in Hs. apply andb_true_iff in Hs as [Hc Hs].
  cbn [strings.replaceFrom]. destruct skip as [|k]; [|apply IH, Hs].
  destruct (strings.lookup pairs (String c s)) as [[old new]|] eqn:L.
  - rewrite absent_append, (IH _ Hs), andb_true_r.
    unfold strings.lookup in L. apply find_some in L as [Hin _].
    rewrite List.Forall_forall in Hnew. apply (Hnew _ Hin).
  - cbn [absent]. rewrite Hc, (IH _ Hs). reflexivity.
Qed.

(** X1: whatever the input, the text [EscapeText] returns holds no
    less-than sign, no greater-than sign, no double quote and no
    apostrophe. *)
Theorem EscapeText_no_markup (text : string) :
  absent "<" (EscapeText text) = true
  /\ absent ">" (EscapeText text) = true
  /\ absent (chr 34) (EscapeText text) = true
  /\ absent "'" (EscapeText text) = true.
Proof.
  assert (H : forall x, isMarkup x = true -> (byte x =? 38)%Z = false ->
             Ascii.eqb newline x = false ->
             absent x (EscapeText text) = true).
  { intros x Hx Hamp Hnl. unfold EscapeText, strings.Replace.
    apply replaceFrom_absent.
    - repeat constructor. unfold newline in Hnl. cbn [snd str1 absent]. rewrite Hnl. reflexivity.
    - unfold xml.EscapeText, xml.escapeText. apply escapeFrom_absent; auto. }
  repeat split; apply H; reflexivity.
Qed.

(** An ASCII byte that the switch does not escape is copied. *)
Lemma escapeFrom_copy (b : bool) (c : ascii) (s : string) :
  (byte c < 128)%Z -> xml.escapeOf b (byte c) 1 = None ->
  xml.escapeFrom b 0 true (String c s) = String c (xml.escapeFrom b 0 true s).
Proof.
  intros Hc E. cbn [xml.escapeFrom]. rewrite (DecodeRune_ascii c s Hc), E. reflexivity.
Qed.

Lemma escapeFrom_escape (b : bool) (c : ascii) (s : string) (esc : string) :
  (byte c < 128)%Z -> xml.escapeOf b (byte c) 1 = Some esc ->
  xml.escapeFrom b 0 true (String c s) = esc +:+ xml.escapeFrom b 0 false s.
Proof.
  intros Hc E. cbn [xml.escapeFrom]. rewrite (DecodeRune_ascii c s Hc), E. reflexivity.
Qed.

(** With nothing pending, the loop does not look at [keep]. *)
Lemma escapeFrom_keep (b : bool) (keep : bool) (s : string) :
  xml.escapeFrom b 0 keep s = xml.escapeFrom b 0 true s.
Proof. destruct s; reflexivity. Qed.

Lemma plainByte_cases (c : ascii) :
  plainByte c = true ->
  (byte c = 10%Z)
  \/ ((32 <= byte c <= 126)%Z /\ isMarkup c = false).
Proof.
  unfold plainByte. intros H. apply orb_true_iff in H as [H|H].
  - right. apply andb_true_iff in H as [H Hm]. apply andb_true_iff in H as [H1 H2].
    apply Z.leb_le in H1. apply Z.leb_le in H2. apply negb_true_iff in Hm. auto.
  - left. apply Z.eqb_eq in H. exact H.
Qed.

Lemma escapeOf_plain (c : ascii) :
  (32 <= byte c <= 126)%Z -> isMarkup c = false ->
  xml.escapeOf true (byte c) 1 = None.
Proof.
  intros Hc Hm. unfold isMarkup in Hm.
  repeat (apply orb_false_iff in Hm as [Hm ?]).
  unfold xml.escapeOf, xml.isInCharacterRange, utf8.RuneError.
  repeat (match goal with
          | H : (byte c =? _)%Z = false |- _ => rewrite H; clear H
          end).
  assert ((byte c =? 9)%Z = false) as -> by (apply Z.eqb_neq; lia).
  assert ((byte c =? 10)%Z = false) as -> by (apply Z.eqb_neq; lia).
  assert ((byte c =? 13)%Z = false) as -> by (apply Z.eqb_neq; lia).
  assert ((32 <=? byte c)%Z = true) as -> by (apply Z.leb_le; lia).
  assert ((byte c <=? 55295)%Z = true) as -> by (apply Z.leb_le; lia).
  assert ((byte c =? 65533)%Z = false) as -> by (apply Z.eqb_neq; lia).
  reflexivity.
Qed.

(** X2: on plain text (printable ASCII other than the five markup
    characters, and newlines) [EscapeText] changes nothing. *)
Theorem EscapeText_plain (text : string) :
  allBytes plainByte text = true -> EscapeText text = text.
Proof.
  unfold EscapeText, strings.Replace, xml.EscapeText, xml.escapeText.
  induction text as [|c text IH]; intros H; [reflexivity|].
  cbn [allBytes] in H. apply andb_true_iff in H as [Hc H]. specialize (IH H).
  destruct (plainByte_cases c Hc) as [Hnl|[Hrange Hm]].
  - assert (c = newline) as ->.
    { rewrite <- (chr_byte c), Hnl. reflexivity. }
    rewrite (escapeFrom_escape true newline text xml.escNL); [|vm_compute; reflexivity|reflexivity].
    rewrite escapeFrom_keep. unfold xml.escNL.
    rewrite !append_cons, append_empty_l, replaceFrom_newline_cons.
    cbn [HasPrefix Ascii.eqb Bool.eqb andb]. rewrite HasPrefix_empty.
    cbn [strings.replaceFrom].
    f_equal. exact IH.
  - rewrite (escapeFrom_copy true c text); [|lia|apply escapeOf_plain; assumption].
    rewrite replaceFrom_newline_cons.
    assert (HasPrefix (String c (xml.escapeFrom true 0 true text)) "&#xA;" = false) as ->.
    { rewrite HasPrefix_cons. unfold isMarkup in Hm.
      rewrite neq_byte; [reflexivity|].
      change (byte "&") with 38%Z. intros E.
      rewrite <- E, Z.eqb_refl, orb_true_r in Hm. discriminate Hm. }
    f_equal. exact IH.
Qed.

Lemma EscapeText_plain_witness :
  EscapeText ("alpine.paterva.com" +:+ str1 newline +:+ "port 443/tcp")
  = "alpine.paterva.com" +:+ str1 newline +:+ "port 443/tcp".
Proof. apply EscapeText_plain. vm_compute. reflexivity. Defined.

(** ** The entity model: lookups after [AddProperty] *)

Lemma rangeFields_app_cases (l1 l2 : list Field) (name : string) :
  rangeFields (l1 ++ l2) name =
  if hasField name l1 then rangeFields l1 name else rangeFields l2 name.
Proof.
  induction l1 as [|f l1 IH]; [reflexivity|].
  cbn [app rangeFields hasField existsb]. fold (hasField name l1).
  destruct (String.eqb (Field_Name f) name); [reflexivity | exact IH].
Qed.

(** X3: after [AddProperty], [GetFieldByName] returns for every name, also
    on an entity that had no field collection: it gives the text of the
    first field that already bore the name, else the escaped new value
    when the name is the one just added, else the empty string.  So adding
    a property under a name that is taken does not change what is read
    under it, and on an entity with a field collection no lookup of an
    other name changes. *)
Theorem GetFieldByName_after_AddProperty
    (tre : Entity) (fieldName displayName matchingRule value name : string) :
  GetFieldByName (AddProperty tre fieldName displayName matchingRule value) name
  = Returns (if hasField name (itemsOf tre) then rangeFields (itemsOf tre) name
             else if String.eqb fieldName name then EscapeText value
             else EmptyString)
  /\ (forall fields,
        Entity_Fields tre = Some fields ->
        hasField name (AdditionalFields_Items fields) = true \/ fieldName <> name ->
        GetFieldByName (AddProperty tre fieldName displayName matchingRule value) name
        = GetFieldByName tre name).
Proof.
  assert (H : GetFieldByName (AddProperty tre fieldName displayName matchingRule value) name
              = Returns (if hasField name (itemsOf tre) then rangeFields (itemsOf tre) name
                         else if String.eqb fieldName name then EscapeText value
                         else EmptyString)).
  { pose (c := {| call_fieldName := fieldName; call_displayName := displayName;
                  call_matchingRule := matchingRule; call_value := value |}).
    change (AddProperty tre fieldName displayName matchingRule value) with (addProperty tre c).
    rewrite (GetFieldByName_returns _ _ _ (addProperty_Fields tre c)).
    cbn [AdditionalFields_Items]. rewrite rangeFields_app_cases.
    destruct (hasField name (itemsOf tre)); [reflexivity|].
    cbn [rangeFields fieldOf Field_Name Field_Text c call_fieldName call_value].
    reflexivity. }
  split; [exact H|].
  intros fields Hfields Hcase. rewrite H, (GetFieldByName_returns _ _ _ Hfields).
  unfold itemsOf. rewrite Hfields. f_equal.
  destruct (hasField name (AdditionalFields_Items fields)) eqn:E; [reflexivity|].
  destruct Hcase as [Hcase|Hcase]; [discriminate Hcase|].
  apply String.eqb_neq in Hcase. rewrite Hcase. symmetry. apply rangeFields_absent.
  clear -E. induction (AdditionalFields_Items fields) as [|f l IH]; constructor.
  - cbn [hasField existsb] in E. apply orb_false_iff in E as [E _].
    apply String.eqb_neq. exact E.
  - apply IH. cbn [hasField existsb] in E. apply orb_false_iff in E as [_ E]. exact E.
Qed.

Lemma GetFieldByName_after_AddProperty_witness :
  GetFieldByName (SetLinkColor linkedEntity "#00ff00") "hostname"
  = GetFieldByName linkedEntity "hostname"
  /\ GetFieldByName (SetLinkColor linkedEntity "#00ff00") LinkColor
     = GetFieldByName linkedEntity LinkColor.
Proof.
  split.
  - eapply (proj2 (GetFieldByName_after_AddProperty linkedEntity LinkColor "LinkColor"
                     Loose "#00ff00" "hostname")); [reflexivity|].
    left. reflexivity.
  - eapply (proj2 (GetFieldByName_after_AddProperty linkedEntity LinkColor "LinkColor"
                     Loose "#00ff00" LinkColor)); [reflexivity|].
    left. reflexivity.
Defined.

(** ** The envelope helpers: what a sequence of calls leaves *)

Lemma responseOrNew_call (tr : Transform) (c : helperCall) :
  responseOrNew (call tr c) = extendResponse (responseOrNew tr) [c].
Proof.
  destruct c, tr as [[[[es] [ms]]|] x q];
    unfold extendResponse, entitiesOf, uiMessagesOf; cbn;
    rewrite ?List.app_nil_r; reflexivity.
Qed.

Lemma exceptionOrNew_call (tr : Transform) (c : helperCall) :
  exceptionOrNew (call tr c) = extendException (exceptionOrNew tr) [c].
Proof.
  destruct c, tr as [r [[[xs]]|] q];
    unfold extendException, exceptionsOf; cbn;
    rewrite ?List.app_nil_r; reflexivity.
Qed.

Lemma extendResponse_app (r : ResponseMessage) (cs1 cs2 : list helperCall) :
  extendResponse (extendResponse r cs1) cs2 = extendResponse r (cs1 ++ cs2).
Proof.
  unfold extendResponse, entitiesOf, uiMessagesOf.
  cbn [ResponseMessage_Entities ResponseMessage_UIMessages Entities_Items UIMessages_Items].
  rewrite !flat_map_app, !List.app_assoc. reflexivity.
Qed.

Lemma extendException_app (x : ExceptionMessage) (cs1 cs2 : list helperCall) :
  extendException (extendException x cs1) cs2 = extendException x (cs1 ++ cs2).
Proof.
  unfold extendException, exceptionsOf.
  cbn [ExceptionMessage_Exceptions Exceptions_Items].
  rewrite !flat_map_app, !List.app_assoc. reflexivity.
Qed.

Lemma responseOrNew_calls (cs : list helperCall) (tr : Transform) :
  responseOrNew (calls tr cs) = extendResponse (responseOrNew tr) cs.
Proof.
  revert tr. induction cs as [|c cs IH]; intros tr.
  - unfold extendResponse. cbn [calls fold_left entitiesOf uiMessagesOf flat_map].
    rewrite !List.app_nil_r. destruct (responseOrNew tr) as [[es] [ms]]. reflexivity.
  - rewrite calls_cons, IH, responseOrNew_call, extendResponse_app. reflexivity.
Qed.

Lemma exceptionOrNew_calls (cs : list helperCall) (tr : Transform) :
  exceptionOrNew (calls tr cs) = extendException (exceptionOrNew tr) cs.
Proof.
  revert tr. induction cs as [|c cs IH]; intros tr.
  - unfold extendException. cbn [calls fold_left exceptionsOf flat_map].
    rewrite !List.app_nil_r. destruct (exceptionOrNew tr) as [[xs]]. reflexivity.
  - rewrite calls_cons, IH, exceptionOrNew_call, extendException_app. reflexivity.
Qed.

Lemma response_set (t : Transform) :
  isSet (Transform_ResponseMessage t) = true ->
  Transform_ResponseMessage t = Some (responseOrNew t).
Proof. unfold responseOrNew. destruct (Transform_ResponseMessage t); [reflexivity|discriminate]. Qed.

Lemma exception_set (t : Transform) :
  isSet (Transform_ExceptionMessage t) = true ->
  Transform_ExceptionMessage t = Some (exceptionOrNew t).
Proof. unfold exceptionOrNew. destruct (Transform_ExceptionMessage t); [reflexivity|discriminate]. Qed.

Lemma calls_ResponseMessage_value (cs : list helperCall) (tr : Transform) :
  Transform_ResponseMessage (calls tr cs)
  = (if existsb stagesResponse cs then Some (extendResponse (responseOrNew tr) cs)
     else Transform_ResponseMessage tr).
Proof.
  assert (Hset := calls_ResponseMessage cs tr).
  assert (Hnew := responseOrNew_calls cs tr).
  destruct (existsb stagesResponse cs) eqn:E.
  - rewrite orb_true_r in Hset. rewrite (response_set _ Hset), Hnew. reflexivity.
  - clear Hset Hnew. revert tr. induction cs as [|c cs IH]; intros tr; [reflexivity|].
    cbn [existsb] in E. apply orb_false_iff in E as [Ec E].
    rewrite calls_cons, (IH E). destruct c; try discriminate Ec. reflexivity.
Qed.

Lemma calls_ExceptionMessage_value (cs : list helperCall) (tr : Transform) :
  Transform_ExceptionMessage (calls tr cs)
  = (if existsb stagesException cs then Some (extendException (exceptionOrNew tr) cs)
     else Transform_ExceptionMessage tr).
Proof.
  assert (Hset := calls_ExceptionMessage cs tr).
  assert (Hnew := exceptionOrNew_calls cs tr).
  destruct (existsb stagesException cs) eqn:E.
  - rewrite orb_true_r in Hset. rewrite (exception_set _ Hset), Hnew. reflexivity.
  - clear Hset Hnew. revert tr. induction cs as [|c cs IH]; intros tr; [reflexivity|].
    cbn [existsb] in E. apply orb_false_iff in E as [Ec E].
    rewrite calls_cons, (IH E). destruct c; try discriminate Ec; reflexivity.
Qed.

(** X4: a sequence of [AddEntity], [AddUIMessage] and [AddException] calls
    leaves the envelope with its former entities followed by the added
    ones, its former UI messages followed by the added ones and its former
    exceptions followed by the added ones, each list in call order; a
    payload that no call of the sequence stages stays as it was.  How the
    calls of different kinds are interleaved makes no difference. *)
Theorem calls_payloads (tr : Transform) (cs : list helperCall) :
  Transform_ResponseMessage (calls tr cs)
  = (if existsb stagesResponse cs then Some (extendResponse (responseOrNew tr) cs)
     else Transform_ResponseMessage tr)
  /\ Transform_ExceptionMessage (calls tr cs)
     = (if existsb stagesException cs then Some (extendException (exceptionOrNew tr) cs)
        else Transform_ExceptionMessage tr)
  /\ Transform_RequestMessage (calls tr cs) = Transform_RequestMessage tr
  /\ (forall cs',
        entitiesOf cs' = entitiesOf cs -> uiMessagesOf cs' = uiMessagesOf cs ->
        exceptionsOf cs' = exceptionsOf cs ->
        calls tr cs' = calls tr cs).
Proof.
  assert (Hresp := fun cs0 => calls_ResponseMessage_value cs0 tr).
  assert (Hexc := fun cs0 => calls_ExceptionMessage_value cs0 tr).
  split; [apply Hresp|]. split; [apply Hexc|]. split; [apply calls_RequestMessage|].
  intros cs' He Hu Hx.
  assert (Hsr : forall cs0, existsb stagesResponse cs0
                = negb (Nat.eqb (length (entitiesOf cs0) + length (uiMessagesOf cs0)) 0)).
  { induction cs0 as [|c cs0 IH]; [reflexivity|].
    cbn [existsb]. rewrite IH. destruct c; cbn; rewrite ?Nat.add_succ_r; reflexivity. }
  assert (Hsx : forall cs0, existsb stagesException cs0
                = negb (Nat.eqb (length (exceptionsOf cs0)) 0)).
  { induction cs0 as [|c cs0 IH]; [reflexivity|].
    cbn [existsb]. rewrite IH. destruct c; cbn; reflexivity. }
  assert (Heq : forall a b : Transform,
            Transform_ResponseMessage a = Transform_ResponseMessage b ->
            Transform_ExceptionMessage a = Transform_ExceptionMessage b ->
            Transform_RequestMessage a = Transform_RequestMessage b -> a = b).
  { intros [a1 a2 a3] [b1 b2 b3]. cbn. intros -> -> ->. reflexivity. }
  apply Heq.
  - rewrite !Hresp, !Hsr, He, Hu. unfold extendResponse. rewrite He, Hu. reflexivity.
  - rewrite !Hexc, !Hsx, Hx. unfold extendException. rewrite Hx. reflexivity.
  - rewrite !calls_RequestMessage. reflexivity.
Qed.

(** ** [ThrowExceptions] is destructive, [ReturnOutput] is not *)

(** X5: [ThrowExceptions] drops the staged response for good: calling it
    again, or [ReturnOutput] after it, gives the same text, and the
    response payload that later calls stage holds what those calls add and
    nothing of what was added before. *)
Theorem ThrowExceptions_drops_response (tr : Transform) (cs : list helperCall) :
  ThrowExceptions (fst (ThrowExceptions tr)) = ThrowExceptions tr
  /\ ReturnOutput (fst (ThrowExceptions tr)) = snd (ThrowExceptions tr)
  /\ responseOrNew (calls (fst (ThrowExceptions tr)) cs)
     = {| ResponseMessage_Entities := {| Entities_Items := entitiesOf cs |};
          ResponseMessage_UIMessages := {| UIMessages_Items := uiMessagesOf cs |} |}.
Proof.
  split; [reflexivity|]. split; [reflexivity|].
  rewrite responseOrNew_calls. reflexivity.
Qed.

(** ** The local argument parser: what is stored under which key *)

Lemma Join_cons (x : string) (l : list string) (sep : string) :
  l <> [] -> strings.Join (x :: l) sep = x +:+ sep +:+ strings.Join l sep.
Proof. destruct l; [intros H; contradiction|reflexivity]. Qed.

Lemma dropBytes_append (p s : string) : dropBytes (String.length p) (p +:+ s) = s.
Proof. induction p as [|c p IH]; [destruct s; reflexivity|exact IH]. Qed.

(** Joining what [Split] gives with the separator gives the text back. *)
Lemma splitFrom_Join (sep : string) :
  sep <> EmptyString ->
  forall (s : string) (skip : nat) (cur : string),
    strings.Join (strings.splitFrom sep skip cur s) sep = cur +:+ dropBytes skip s.
Proof.
  intros Hsep. induction s as [|c s IH]; intros skip cur.
  - cbn [strings.splitFrom strings.Join String.concat].
    destruct skip; cbn [dropBytes]; rewrite append_empty_r; reflexivity.
  - cbn [strings.splitFrom]. destruct skip as [|k]; [|apply IH].
    cbn [dropBytes]. destruct (HasPrefix (String c s) sep) eqn:E.
    + rewrite Join_cons.
      2:{ destruct (splitFrom_cons sep s (String.length sep - 1) EmptyString)
            as (x & l & ->). discriminate. }
      rewrite IH, append_empty_l. f_equal.
      destruct sep as [|p sep']; [contradiction|].
      rewrite HasPrefix_cons in E. apply andb_true_iff in E as [Ep Es].
      apply Ascii.eqb_eq in Ep. subst p.
      apply HasPrefix_split in Es as [post ->].
      cbn [String.length Nat.sub]. rewrite Nat.sub_0_r, dropBytes_append.
      rewrite append_cons. reflexivity.
    + rewrite IH. cbn [dropBytes]. unfold str1.
      rewrite append_assoc, append_cons, append_empty_l. reflexivity.
Qed.

Lemma Join_Split (s sep : string) :
  sep <> EmptyString -> strings.Join (strings.Split s sep) sep = s.
Proof.
  intros Hsep. unfold strings.Split. rewrite (splitFrom_Join sep Hsep). reflexivity.
Qed.

(** Splitting at an equals sign: the first part is the text before the
    first sign, and the other parts join to the text after it. *)
Lemma splitFrom_cutAt (s : string) (cur : string) :
  exists rest,
    strings.splitFrom "=" 0 cur s = (cur +:+ fst (cutAt "=" s)) :: rest
    /\ strings.Join rest "=" = snd (cutAt "=" s).
Proof.
  revert cur. induction s as [|c s IH]; intros cur.
  - exists []. cbn. rewrite append_empty_r. split; reflexivity.
  - cbn [strings.splitFrom cutAt]. rewrite HasPrefix_cons, HasPrefix_empty, andb_true_r.
    rewrite Ascii.eqb_sym. destruct (Ascii.eqb c "=") eqn:E.
    + cbn [String.length Nat.sub fst snd]. rewrite append_empty_r.
      eexists. split; [reflexivity|].
      apply (splitFrom_Join "=" ltac:(discriminate) s 0 EmptyString).
    + destruct (IH (cur +:+ str1 c)) as (rest & Hrest & Hjoin).
      exists rest. rewrite Hrest. destruct (cutAt "=" s) as [before after].
      cbn [fst snd] in *. split; [|exact Hjoin].
      unfold str1. rewrite append_assoc, append_cons, append_empty_l. reflexivity.
Qed.

(** X6: for every chunk [x], the inner loop of [ParseLocalArguments]
    stores one entry and never panics: the key is the text of [x] before
    its first equals sign (all of [x] when it has none), and the value is
    the text after that sign, further equals signs included and none when
    there is no sign, passed through the replacer.  The two branches of
    the loop body do the same. *)
Theorem parseVar_cuts_at_first_equals (values : gmap string string) (x : string) :
  parseVar values x
  = Returns (<[ fst (cutAt "=" x) := strings.Replace replacer (snd (cutAt "=" x)) ]> values).
Proof.
  unfold parseVar, strings.Split.
  destruct (splitFrom_cutAt x EmptyString) as (rest & -> & Hjoin).
  rewrite append_empty_l.
  destruct (length (fst (cutAt "=" x) :: rest) =? 2) eqn:E.
  - destruct rest as [|v [|? ?]]; try discriminate E.
    cbn [strings.Join String.concat] in Hjoin. subst v. reflexivity.
  - change (drop 1 (fst (cutAt "=" x) :: rest)) with rest.
    cbn [index lookup list_lookup]. rewrite bind_Returns, Hjoin. reflexivity.
Qed.

Lemma rangeOver_parseVar (chunks : list string) (values : gmap string string) :
  rangeOver parseVar chunks values = Returns (fold_left store chunks values).
Proof.
  revert values. induction chunks as [|x chunks IH]; intros values; [reflexivity|].
  cbn [rangeOver fold_left]. rewrite parseVar_cuts_at_first_equals, bind_Returns.
  apply IH.
Qed.

Lemma parseArg_stores (values : gmap string string) (arg : string) :
  parseArg values arg
  = Returns (fold_left store
               (if 0 <? String.length (strings.ReplaceAll arg (str1 newline) " ")
                then strings.Split (strings.ReplaceAll arg (str1 newline) " ") "#"
                else []) values).
Proof.
  unfold parseArg. cbv zeta. fold newline.
  destruct (0 <? String.length (strings.ReplaceAll arg (str1 newline) " "));
    [apply rangeOver_parseVar | reflexivity].
Qed.

Lemma rangeOver_parseArg (args : list string) (values : gmap string string) :
  rangeOver parseArg args values
  = Returns (fold_left store
               (flat_map
                  (fun arg =>
                     let arg := strings.ReplaceAll arg (str1 newline) " " in
                     if 0 <? String.length arg then strings.Split arg "#" else [])
                  args) values).
Proof.
  revert values. induction args as [|arg args IH]; intros values; [reflexivity|].
  cbn [rangeOver flat_map]. rewrite fold_left_app, parseArg_stores, bind_Returns.
  apply IH.
Qed.

Lemma store_other (chunks : list string) (values : gmap string string) (key : string) :
  Forall (fun x => keyOf x <> key) chunks ->
  fold_left store chunks values !! key = values !! key.
Proof.
  intros H. revert values. induction H as [|x chunks Hx _ IH]; intros values; [reflexivity|].
  cbn [fold_left]. rewrite IH. unfold store. apply lookup_insert_ne. exact Hx.
Qed.

(** With two arguments or more the parser returns the first argument and
    the map in which the chunks were stored one after the other. *)
Lemma ParseLocalArguments_stores (args : list string) :
  2 <= length args ->
  exists value,
    head args = Some value
    /\ ParseLocalArguments args
       = Returns {| LocalTransform_Value := value;
                    LocalTransform_Values := fold_left store (chunksOf args) ∅ |}.
Proof.
  intros Hlen. unfold ParseLocalArguments.
  assert ((length args <? 2) = false) as -> by (apply Nat.ltb_ge; exact Hlen).
  assert ((1 <? length args) = true) as -> by (apply Nat.ltb_lt; lia).
  destruct args as [|a0 args]; [cbn in Hlen; lia|].
  cbn [index lookup list_lookup]. rewrite bind_Returns, rangeOver_parseArg, bind_Returns.
  exists a0. split; reflexivity.
Qed.

(** X7: with two arguments or more, [ParseLocalArguments] returns the map
    in which the chunks of the arguments after the first were stored one
    after the other.  Reading a key gives the value of the last chunk that
    has this key, and nothing when no chunk has it. *)
Theorem ParseLocalArguments_last_chunk_wins (args : list string) :
  2 <= length args ->
  exists lt,
    ParseLocalArguments args = Returns lt
    /\ LocalTransform_Values lt = fold_left store (chunksOf args) ∅
    /\ (forall before x after,
          chunksOf args = before ++ x :: after ->
          Forall (fun y => keyOf y <> keyOf x) after ->
          LocalTransform_Values lt !! keyOf x = Some (valueOf x))
    /\ (forall key,
          Forall (fun y => keyOf y <> key) (chunksOf args) ->
          LocalTransform_Values lt !! key = None).
Proof.
  intros Hlen. destruct (ParseLocalArguments_stores args Hlen) as (value & _ & ->).
  eexists. split; [reflexivity|]. cbn [LocalTransform_Values].
  split; [reflexivity|]. split.
  - intros before x after -> Hafter.
    rewrite fold_left_app. cbn [fold_left].
    rewrite (store_other after _ _ Hafter). unfold store. apply lookup_insert_eq.
  - intros key Hkey. rewrite (store_other _ _ _ Hkey). apply lookup_empty.
Qed.

Lemma ParseLocalArguments_last_chunk_wins_witness :
  exists lt,
    ParseLocalArguments shellArguments = Returns lt
    /\ LocalTransform_Values lt !! "port" = Some "443"
    /\ LocalTransform_Values lt !! "note" = Some "a=b"
    /\ LocalTransform_Values lt !! "flag" = Some EmptyString
    /\ LocalTransform_Values lt !! "host" = None.
Proof.
  destruct (ParseLocalArguments_last_chunk_wins shellArguments) as (lt & Hlt & _ & Hlast & Hnone).
  { cbn. lia. }
  exists lt. split; [exact Hlt|]. split; [|split; [|split]].
  - apply (Hlast [ "port=80"; "note=a\=b" ] "port=443" [ "flag" ]); [reflexivity|].
    repeat constructor. discriminate.
  - apply (Hlast [ "port=80" ] "note=a\=b" [ "port=443"; "flag" ]); [reflexivity|].
    repeat constructor; discriminate.
  - apply (Hlast [ "port=80"; "note=a\=b"; "port=443" ] "flag" []); [reflexivity|].
    constructor.
  - apply Hnone.
    assert (E : chunksOf shellArguments = [ "port=80"; "note=a\=b"; "port=443"; "flag" ])
      by (vm_compute; reflexivity).
    rewrite E. repeat (constructor; [intros H; vm_compute in H; discriminate H|]).
    constructor.
Defined.

Lemma cutAt_absent_sep (sep : ascii) (s : string) : absent sep (fst (cutAt sep s)) = true.
Proof.
  induction s as [|c s IH]; [reflexivity|].
  cbn [cutAt]. destruct (Ascii.eqb c sep) eqn:E; [reflexivity|].
  destruct (cutAt sep s) as [before after]. cbn [fst absent] in *.
  rewrite E, IH. reflexivity.
Qed.

Lemma cutAt_absent (y sep : ascii) (s : string) :
  absent y s = true -> absent y (fst (cutAt sep s)) = true.
Proof.
  induction s as [|c s IH]; [reflexivity|].
  cbn [absent cutAt]. intros H. apply andb_true_iff in H as [Hc Hs].
  destruct (Ascii.eqb c sep); [reflexivity|].
  specialize (IH Hs). destruct (cutAt sep s) as [before after]. cbn [fst absent] in *.
  rewrite Hc, IH. reflexivity.
Qed.

(** The parts [Split] gives at number signs hold no number sign, and no
    other byte that the text does not hold. *)
Lemma splitFrom_absent (y : ascii) (s cur : string) :
  absent y cur = true ->
  (Ascii.eqb "#" y = true \/ absent y s = true) ->
  Forall (fun x => absent y x = true) (strings.splitFrom "#" 0 cur s).
Proof.
  revert cur. induction s as [|c s IH]; intros cur Hcur Hs.
  - repeat constructor. exact Hcur.
  - cbn [strings.splitFrom]. rewrite HasPrefix_cons, HasPrefix_empty, andb_true_r.
    assert (Hs' : Ascii.eqb "#" y = true \/ absent y s = true).
    { destruct Hs as [Hs|Hs]; [left; exact Hs|right].
      cbn [absent] in Hs. apply andb_true_iff in Hs as [_ Hs]. exact Hs. }
    destruct (Ascii.eqb "#" c) eqn:E.
    + constructor; [exact Hcur|]. apply IH; [reflexivity|exact Hs'].
    + apply IH; [|exact Hs'].
      rewrite absent_append, Hcur. cbn [str1 absent]. rewrite andb_true_r.
      destruct Hs as [Hs|Hs].
      * apply Ascii.eqb_eq in Hs. subst y. rewrite Ascii.eqb_sym, E. reflexivity.
      * cbn [absent] in Hs. apply andb_true_iff in Hs as [Hc _]. exact Hc.
Qed.

Lemma ReplaceAll_newline_absent (s : string) :
  absent newline (strings.ReplaceAll s (str1 newline) " ") = true.
Proof.
  unfold strings.ReplaceAll. induction s as [|c s IH]; [reflexivity|].
  cbn [strings.replaceFrom strings.lookup List.find fst]. unfold str1 at 1.
  rewrite HasPrefix_cons, HasPrefix_empty, andb_true_r.
  destruct (Ascii.eqb newline c) eqn:E.
  - cbn [String.length str1 Nat.sub]. rewrite append_cons, append_empty_l.
    cbn [absent]. rewrite IH. reflexivity.
  - cbn [absent]. rewrite Ascii.eqb_sym, E, IH. reflexivity.
Qed.

Lemma store_keys (chunks : list string) (values : gmap string string) (key v : string) :
  fold_left store chunks values !! key = Some v ->
  values !! key = Some v \/ exists x, In x chunks /\ key = keyOf x.
Proof.
  revert values. induction chunks as [|x chunks IH]; intros values H; [left; exact H|].
  cbn [fold_left] in H. apply IH in H as [H|(y & Hy & ->)].
  - unfold store in H. destruct (decide (keyOf x = key)) as [<-|Hne].
    + right. exists x. split; [left; reflexivity|reflexivity].
    + rewrite lookup_insert_ne in H by exact Hne. left. exact H.
  - right. exists y. split; [right; exact Hy|reflexivity].
Qed.

Lemma chunksOf_absent (args : list string) (x : string) :
  In x (chunksOf args) -> absent "#" x = true /\ absent newline x = true.
Proof.
  unfold chunksOf. intros H. apply in_flat_map in H as (arg & _ & H).
  cbv zeta in H.
  destruct (0 <? String.length (strings.ReplaceAll arg (str1 newline) " "));
    [|destruct H].
  unfold strings.Split in H. split.
  - assert (F := splitFrom_absent "#"
                   (strings.ReplaceAll arg (str1 newline) " ") EmptyString
                   eq_refl (or_introl eq_refl)).
    rewrite List.Forall_forall in F. apply F, H.
  - assert (F := splitFrom_absent newline
                   (strings.ReplaceAll arg (str1 newline) " ") EmptyString
                   eq_refl (or_intror (ReplaceAll_newline_absent arg))).
    rewrite List.Forall_forall in F. apply F, H.
Qed.

(** X8: no key of the map [ParseLocalArguments] returns holds an equals
    sign, a number sign or a newline. *)
Theorem ParseLocalArguments_keys (args : list string) (lt : LocalTransform)
    (key value : string) :
  ParseLocalArguments args = Returns lt ->
  LocalTransform_Values lt !! key = Some value ->
  absent "=" key = true /\ absent "#" key = true /\ absent newline key = true.
Proof.
  intros Hret Hkey.
  assert (Hlen : 2 <= length args).
  { unfold ParseLocalArguments in Hret.
    destruct (length args <? 2) eqn:E; [discriminate Hret|].
    apply Nat.ltb_ge in E. exact E. }
  destruct (ParseLocalArguments_stores args Hlen) as (value0 & _ & Hlt).
  rewrite Hret in Hlt. injection Hlt as ->.
  cbn [LocalTransform_Values] in Hkey. apply store_keys in Hkey as [Hkey|(x & Hx & ->)].
  { rewrite lookup_empty in Hkey. discriminate Hkey. }
  apply chunksOf_absent in Hx as [Hhash Hnl]. unfold keyOf.
  split; [apply cutAt_absent_sep|]. split; apply cutAt_absent; assumption.
Qed.

Lemma ParseLocalArguments_keys_witness :
  absent "=" "note" = true /\ absent "#" "note" = true /\ absent newline "note" = true.
Proof.
  eapply (ParseLocalArguments_keys shellArguments _ "note" "a=b");
    [reflexivity | vm_compute; reflexivity].
Defined.

(** ** [GetThicknessInterval] *)

Lemma uint64_small (z : Z) : isUint64 z -> uint64 z = z.
Proof. intros H. unfold uint64. apply Z.mod_small. exact H. Qed.

(** The five thresholds of [GetThicknessInterval] do not wrap around. *)
Lemma interval_multiples (delta k : Z) :
  isUint64 delta -> (1 <= k <= 5)%Z -> uint64 (delta / 5 * k) = (delta / 5 * k)%Z.
Proof.
  intros Hd Hk. apply uint64_small. unfold isUint64 in *.
  assert (0 <= delta / 5)%Z by (apply Z.div_pos; lia).
  assert (delta / 5 * 5 <= delta)%Z by (pose proof (Z.mul_div_le delta 5); lia).
  nia.
Qed.

(** X9: [GetThicknessInterval] gives a thickness from 1 to 5 that does
    not decrease when the value grows, for any bounds. *)
Theorem GetThicknessInterval_monotone (val val' min max : Z) :
  (val <= val')%Z ->
  (1 <= GetThicknessInterval val min max <= 5)%Z
  /\ (GetThicknessInterval val min max <= GetThicknessInterval val' min max)%Z.
Proof.
  intros H. unfold GetThicknessInterval. cbv zeta.
  repeat (match goal with
          | |- context [(?a <=? ?b)%Z] => destruct (Z.leb_spec a b)
          end); lia.
Qed.

Lemma GetThicknessInterval_monotone_witness :
  (GetThicknessInterval 10 0 100 <= GetThicknessInterval 70 0 100)%Z.
Proof. apply (GetThicknessInterval_monotone 10 70 0 100). lia. Defined.

(** X10: the value is compared with fifths of the width [max - min], and
    not with its place between [min] and [max]: when [min] is above four
    fifths of the width, every value from [min] upwards, the smallest one
    included, gets the thickness 5. *)
Theorem GetThicknessInterval_ignores_offset (val min max : Z) :
  isUint64 val -> isUint64 min -> isUint64 max ->
  (min < max)%Z -> ((max - min) / 5 * 4 < min)%Z -> (min <= val)%Z ->
  GetThicknessInterval val min max = 5%Z.
Proof.
  intros Hv Hmin Hmax Hlt Hwide Hval. unfold GetThicknessInterval.
  assert ((min =? max)%Z = false) as -> by (apply Z.eqb_neq; lia). cbv zeta.
  assert (Hd : isUint64 (max - min)) by (unfold isUint64 in *; lia).
  rewrite (uint64_small _ Hd).
  rewrite !(interval_multiples _ _ Hd) by lia.
  assert (0 <= (max - min) / 5)%Z by (apply Z.div_pos; unfold isUint64 in *; lia).
  repeat (match goal with
          | |- context [(?a <=? ?b)%Z] => destruct (Z.leb_spec a b)
          end); lia.
Qed.

Lemma GetThicknessInterval_ignores_offset_witness :
  GetThicknessInterval 100 100 200 = 5%Z.
Proof.
  apply GetThicknessInterval_ignores_offset; unfold isUint64; try lia.
  vm_compute. reflexivity.
Defined.

(** X11: with [min] above [max] the width wraps around: the thickness is
    the one for the bounds 0 and [2^64 - (min - max)]; and with
    [min = max] it is the one for the bounds 0 and [max]. *)
Theorem GetThicknessInterval_wraps (val min max : Z) :
  isUint64 min -> isUint64 max -> (max < min)%Z ->
  GetThicknessInterval val min max
  = GetThicknessInterval val 0 (2 ^ 64 - (min - max))
  /\ GetThicknessInterval val max max = GetThicknessInterval val 0 max.
Proof.
  intros Hmin Hmax Hlt. unfold GetThicknessInterval, isUint64 in *.
  assert ((min =? max)%Z = false) as -> by (apply Z.eqb_neq; lia).
  assert ((0 =? 2 ^ 64 - (min - max))%Z = false) as -> by (apply Z.eqb_neq; lia).
  rewrite Z.eqb_refl. cbv zeta.
  assert (uint64 (max - min) = uint64 (2 ^ 64 - (min - max) - 0)) as ->.
  { unfold uint64. replace (2 ^ 64 - (min - max) - 0)%Z with (max - min + 1 * 2 ^ 64)%Z by lia.
    rewrite Z.mod_add by lia. reflexivity. }
  split; [reflexivity|].
  destruct (0 =? max)%Z eqn:E; [|reflexivity].
  apply Z.eqb_eq in E. subst max. reflexivity.
Qed.

Lemma GetThicknessInterval_wraps_witness :
  GetThicknessInterval 1000 10 5 = 1%Z.
Proof.
  rewrite (proj1 (GetThicknessInterval_wraps 1000 10 5
                    ltac:(unfold isUint64; lia) ltac:(unfold isUint64; lia) ltac:(lia))).
  vm_compute. reflexivity.
Defined.

(** ** [Pluralize] *)

Lemma dropBytes_last (c : ascii) (s : string) :
  dropBytes (String.length (String c s) - 1) (String c s)
  = match lastByte (String c s) with Some l => str1 l | None => EmptyString end.
Proof.
  revert c. induction s as [|d s IH]; intros c; [reflexivity|].
  specialize (IH d). cbn [String.length Nat.sub] in *. rewrite Nat.sub_0_r in *.
  cbn [dropBytes lastByte]. exact IH.
Qed.

Lemma HasSuffix_lastByte (s : string) (c : ascii) :
  HasSuffix s (String c EmptyString)
  = match lastByte s with Some l => Ascii.eqb l c | None => false end.
Proof.
  unfold HasSuffix. destruct s as [|d s]; [reflexivity|].
  change (String.length (String c EmptyString)) with 1. rewrite dropBytes_last.
  cbn [String.length Nat.leb andb]. destruct (lastByte (String d s)) as [l|] eqn:E.
  - unfold str1. cbn [String.eqb]. destruct (Ascii.eqb l c); reflexivity.
  - exfalso. clear -E. revert d E. induction s as [|e s IH]; intros d E.
    + discriminate E.
    + apply (IH e). exact E.
Qed.

Lemma lastByte_append (s : string) (c : ascii) (t : string) :
  lastByte (s +:+ String c t) = lastByte (String c t).
Proof.
  induction s as [|d s IH]; [reflexivity|].
  rewrite append_cons.
  destruct (s +:+ String c t) eqn:E.
  - destruct s; [rewrite append_empty_l in E|rewrite append_cons in E]; discriminate E.
  - rewrite <- IH. reflexivity.
Qed.

(** X12: [Pluralize] changes at most the end of a name, and applies at
    most one of its rules: a name that ends in y gets ies for the y,
    whether or not it is in the map of exceptions; a name that ends in e,
    w, t or n gets an s unless it is in the map; any other name, the empty
    one included, is returned as it is. *)
Theorem Pluralize_cases (noPlurals : gset string) (name : string) :
  Pluralize noPlurals name =
  match lastByte name with
  | None => name
  | Some c =>
    if Ascii.eqb c "y" then takeBytes (String.length name - 1) name +:+ "ies"
    else if takesS c then
      if bool_decide (name ∈ noPlurals) then name else name +:+ "s"
    else name
  end.
Proof.
  unfold Pluralize, takesS. cbv zeta.
  assert (Hs : forall s : string, lastByte (s +:+ "s") = Some "s"%char).
  { intros s. apply (lastByte_append s "s" EmptyString). }
  assert (Hies : forall s : string, lastByte (s +:+ "ies") = Some "s"%char).
  { intros s. rewrite (lastByte_append s "i" "es"). reflexivity. }
  destruct (lastByte name) as [c|] eqn:E.
  2:{ repeat first [rewrite HasSuffix_lastByte | rewrite E | progress cbn [orb]]. reflexivity. }
  destruct (Ascii.eqb c "e") eqn:Ee; [apply Ascii.eqb_eq in Ee; subst c|].
  2: destruct (Ascii.eqb c "w") eqn:Ew; [apply Ascii.eqb_eq in Ew; subst c|].
  3: destruct (Ascii.eqb c "y") eqn:Ey; [apply Ascii.eqb_eq in Ey; subst c|].
  4: destruct (Ascii.eqb c "t") eqn:Et; [apply Ascii.eqb_eq in Et; subst c|].
  5: destruct (Ascii.eqb c "n") eqn:En; [apply Ascii.eqb_eq in En; subst c|].
  all: repeat first
         [ rewrite HasSuffix_lastByte | rewrite E | rewrite Hs | rewrite Hies
         | rewrite Ee | rewrite Ew | rewrite Ey | rewrite Et | rewrite En
         | progress cbn [Ascii.eqb Bool.eqb andb orb]
         | match goal with
           | |- context [bool_decide (?x ∈ ?m)] => destruct (bool_decide (x ∈ m))
           end ].
  all: reflexivity.
Qed.

(** The plurals of the package's own tests and of the two exceptions. *)
Example Pluralize_examples :
  Pluralize NoPluralsMap "TestEntity" = "TestEntities"
  /\ Pluralize NoPluralsMap "Software" = "Software"
  /\ Pluralize NoPluralsMap "Ethernet" = "Ethernet"
  /\ Pluralize NoPluralsMap "Interface" = "Interfaces"
  /\ Pluralize NoPluralsMap "PCAP" = "PCAP".
Proof. repeat split; vm_compute; reflexivity. Qed.
